(** * Sentiment dashboard: a shallow embedding of [sentiment_dashboard.py]

    The script loads a CSV of social-media posts with pandas, narrows it by
    three sidebar selections and renders metrics and charts with Streamlit.
    This file embeds the loader, the filter, the aggregations and the page
    the script emits, and proves the properties stated about them.

    Conventions.
    - A Python [str] is a list of Unicode code points ([pystr]).
    - A pandas object cell is [option pystr]: [None] is NaN.
    - A float is a rational ([Q]) or an infinity ([float]); [None] is NaN.
      Binary64 rounding is not represented: sums, means and correlations
      are computed exactly.  The statements about them carry, as
      hypotheses, the bounds within which binary64 neither overflows nor
      confuses a zero spread with a non-zero one.
    - A DataFrame is the list of its rows, in index order.
    - The pandas modelled is pandas 2: [astype(str)] prints NaN as the
      text nan. *)

From Stdlib Require Import Reals Qreals Lra.
From Stdlib Require Import List Bool Arith ZArith QArith Qround Qabs Lia.
From Stdlib Require Import Ascii String DecimalString.
From Stdlib Require Import Sorting.Sorted Sorting.Permutation.
From Stdlib Require Lqa.
Import ListNotations.

Close Scope Q_scope.
Close Scope R_scope.
Open Scope nat_scope.

Set Implicit Arguments.

(* ================================================================== *)
(** * Python strings *)
(* ================================================================== *)

Module PyStr.

(** A code point. *)
Definition pychar := N.

(** A Python [str]. *)
Definition pystr := list pychar.

(** An ASCII literal as a Python [str]. *)
Definition py (s : string) : pystr :=
  List.map N_of_ascii (list_ascii_of_string s).

Fixpoint eqb (s t : pystr) : bool :=
  match s, t with
  | [], [] => true
  | c :: s', d :: t' => N.eqb c d && eqb s' t'
  | _, _ => false
  end.

(** [str.isspace] on one character: the code points CPython treats as
    whitespace (bidirectional class WS, B or S, or category Zs). *)
Definition isspace (c : pychar) : bool :=
  ((9 <=? c) && (c <=? 13)
   || (28 <=? c) && (c <=? 32)
   || (c =? 133) || (c =? 160) || (c =? 5760)
   || (8192 <=? c) && (c <=? 8202)
   || (c =? 8232) || (c =? 8233) || (c =? 8239) || (c =? 8287)
   || (c =? 12288))%N.

(** The separator of [' '.join]. *)
Definition space : pychar := 32%N.

(** [str.split()] with no argument: maximal runs of non-whitespace
    characters, in order; [cur] holds the run being read, reversed. *)
Fixpoint split_aux (cur : pystr) (s : pystr) : list pystr :=
  match s with
  | [] => match cur with [] => [] | _ => [rev cur] end
  | c :: s' =>
      if isspace c
      then match cur with
           | [] => split_aux [] s'
           | _ => rev cur :: split_aux [] s'
           end
      else split_aux (c :: cur) s'
  end.

Definition split (s : pystr) : list pystr := split_aux [] s.

(** [sep.join(parts)]. *)
Fixpoint join (sep : pystr) (parts : list pystr) : pystr :=
  match parts with
  | [] => []
  | [p] => p
  | p :: rest => p ++ sep ++ join sep rest
  end.

End PyStr.

Import PyStr.

(* ================================================================== *)
(** * Data model *)
(* ================================================================== *)

(** A float other than NaN: a finite value, kept exactly, or an infinity.
    NaN is the [None] of [option float]. *)
Inductive float :=
| Fin (q : Q)
| Inf (negative : bool).

(** One row of the frame [load_data] returns.  [Hashtags] is kept as an
    object cell because the script later calls [dropna] on that column. *)
Record Post := mkPost {
  Sentiment : pystr;
  Platform  : pystr;
  Country   : pystr;
  Hashtags  : option pystr;
  Hour      : Z;
  Likes     : float;
  Retweets  : float
}.

Definition DataFrame := list Post.

(** [df.empty] *)
Definition empty (A : Type) (df : list A) : bool :=
  match df with [] => true | _ => false end.

(* ================================================================== *)
(** * Filter layer (lines 67-77) *)
(* ================================================================== *)

(** Truth value of a Python list: [if selected:]. *)
Definition truthy (A : Type) (l : list A) : bool :=
  match l with [] => false | _ => true end.

(** [x in values], the element test behind [Series.isin]. *)
Definition isin (x : pystr) (values : list pystr) : bool :=
  existsb (PyStr.eqb x) values.

(** [filtered_df[filtered_df[col].isin(values)]]: boolean-mask selection. *)
Definition select_isin (col : Post -> pystr) (values : list pystr)
    (df : DataFrame) : DataFrame :=
  filter (fun r => isin (col r) values) df.

(** Lines 68-77. *)
Definition filtered_df (df : DataFrame)
    (selected_platforms selected_sentiments selected_countries : list pystr)
    : DataFrame :=
  let filtered_df := df in
  let filtered_df :=
    if truthy selected_platforms
    then select_isin Platform selected_platforms filtered_df
    else filtered_df in
  let filtered_df :=
    if truthy selected_sentiments
    then select_isin Sentiment selected_sentiments filtered_df
    else filtered_df in
  let filtered_df :=
    if truthy selected_countries
    then select_isin Country selected_countries filtered_df
    else filtered_df in
  filtered_df.

(* ================================================================== *)
(** * Frequency counting *)
(* ================================================================== *)

Section Counting.

Variable K : Type.
Variable K_eqb : K -> K -> bool.

(** [c[k] = c.get(k, 0) + 1] on an insertion-ordered dict: a key already
    present keeps its place, a new key goes last. *)
Fixpoint counter_add (k : K) (c : list (K * nat)) : list (K * nat) :=
  match c with
  | [] => [(k, 1)]
  | (k', n) :: c' =>
      if K_eqb k k' then (k', S n) :: c' else (k', n) :: counter_add k c'
  end.

(** [collections.Counter(iterable)]: the items of the dict, in insertion
    order. *)
Definition Counter (l : list K) : list (K * nat) :=
  fold_left (fun c k => counter_add k c) l [].

(** Insertion into a list sorted by decreasing count, after every item
    whose count is strictly larger and before every other one. *)
Fixpoint insert_desc (x : K * nat) (l : list (K * nat)) : list (K * nat) :=
  match l with
  | [] => [x]
  | y :: l' => if snd x <? snd y then y :: insert_desc x l' else x :: l
  end.

(** [sorted(items, key=itemgetter(1), reverse=True)]: Python's sort is
    stable, also with [reverse=True]. *)
Fixpoint sorted_desc (l : list (K * nat)) : list (K * nat) :=
  match l with
  | [] => []
  | x :: l' => insert_desc x (sorted_desc l')
  end.

(** [Counter.most_common(n)], that is [heapq.nlargest(n, items, key=count)],
    which the library documents as [sorted(items, key=count,
    reverse=True)[:n]]. *)
Definition most_common (n : nat) (c : list (K * nat)) : list (K * nat) :=
  firstn n (sorted_desc c).

(** [Series.value_counts()]: one entry per distinct value, most frequent
    first.  pandas leaves the order among equal counts open; the model
    keeps the order of first appearance. *)
Definition value_counts (l : list K) : list (K * nat) :=
  sorted_desc (Counter l).

(** [Series.unique()]: distinct values in order of first appearance. *)
Definition unique (l : list K) : list K := map fst (Counter l).

End Counting.

(** [Series.sort_index()] on an integer index: ascending, stable. *)
Fixpoint insert_index (A : Type) (x : Z * A) (l : list (Z * A))
    : list (Z * A) :=
  match l with
  | [] => [x]
  | y :: l' => if (fst y <=? fst x)%Z then y :: insert_index x l' else x :: l
  end.

Fixpoint sort_index (A : Type) (l : list (Z * A)) : list (Z * A) :=
  match l with
  | [] => []
  | x :: l' => insert_index x (sort_index l')
  end.

(** [head(n)] *)
Definition head (A : Type) (n : nat) (l : list A) : list A := firstn n l.

(** [Series.dropna()] on an object column. *)
Fixpoint dropna (A : Type) (l : list (option A)) : list A :=
  match l with
  | [] => []
  | Some x :: l' => x :: dropna l'
  | None :: l' => dropna l'
  end.

(* ================================================================== *)
(** * Aggregations used by the page *)
(* ================================================================== *)

(** Line 205: [' '.join(filtered_df['Hashtags'].dropna()).split()] *)
Definition hashtag_list (filtered_df : DataFrame) : list pystr :=
  split (join [space] (dropna (map Hashtags filtered_df))).

(** Line 206: [Counter(hashtag_list).most_common(10)] *)
Definition hashtag_counts (filtered_df : DataFrame) : list (pystr * nat) :=
  most_common 10 (Counter PyStr.eqb (hashtag_list filtered_df)).

(** Line 107 *)
Definition sentiment_counts (filtered_df : DataFrame) : list (pystr * nat) :=
  value_counts PyStr.eqb (map Sentiment filtered_df).

(** Line 172: [filtered_df['Hour'].value_counts().sort_index()] *)
Definition hour_counts (filtered_df : DataFrame) : list (Z * nat) :=
  sort_index (value_counts Z.eqb (map Hour filtered_df)).

(** Line 187 *)
Definition country_counts (filtered_df : DataFrame) : list (pystr * nat) :=
  head 10 (value_counts PyStr.eqb (map Country filtered_df)).

(** Line 138: the sizes of the (Platform, Sentiment) groups.  pandas also
    orders the groups by key and pivots them into a table; neither changes
    which groups exist nor their sizes. *)
Definition platform_sentiment (filtered_df : DataFrame)
    : list ((pystr * pystr) * nat) :=
  Counter (fun a b => PyStr.eqb (fst a) (fst b) && PyStr.eqb (snd a) (snd b))
          (map (fun r => (Platform r, Sentiment r)) filtered_df).

(* ================================================================== *)
(** * Numbers: means, formatting, correlation *)
(* ================================================================== *)

(** Addition of floats, rounding apart: NaN is absorbing and the two
    infinities add up to NaN.  Two finite values are added exactly, which
    is binary64 up to rounding as long as the sum does not overflow; the
    statements on sums bound the values ([moderate]) to keep it so. *)
Definition fadd (a b : option float) : option float :=
  match a, b with
  | Some (Fin p), Some (Fin q) => Some (Fin (p + q)%Q)
  | Some (Inf s), Some (Fin _) => Some (Inf s)
  | Some (Fin _), Some (Inf s) => Some (Inf s)
  | Some (Inf s), Some (Inf t) => if Bool.eqb s t then Some (Inf s) else None
  | _, _ => None
  end.

(** The sum of a column. *)
Definition fsum (l : list float) : option float :=
  fold_left (fun acc x => fadd acc (Some x)) l (Some (Fin (0 # 1))).

(** A sum over a positive number of values. *)
Definition fdiv_count (s : option float) (n : nat) : option float :=
  match s with
  | Some (Fin q) => Some (Fin (q / inject_Z (Z.of_nat n))%Q)
  | other => other
  end.

(** [Series.mean()]: NaN on an empty column. *)
Definition mean (l : list float) : option float :=
  match l with
  | [] => None
  | _ => fdiv_count (fsum l) (List.length l)
  end.

(** Nearest integer, ties to the even one. *)
Definition round_half_even (q : Q) : Z :=
  let f := Qfloor q in
  match (q - inject_Z f ?= 1 # 2)%Q with
  | Lt => f
  | Gt => (f + 1)%Z
  | Eq => if Z.even f then f else (f + 1)%Z
  end.

Definition decimal (z : Z) : string :=
  NilZero.string_of_uint (N.to_uint (Z.to_N z)).

(** [f"{x:.2f}"] for a float [x]: ["nan"] for NaN, ["inf"] or ["-inf"] for
    an infinity, otherwise sign, integer part, a dot and two digits. *)
Definition format_2f (x : option float) : string :=
  match x with
  | None => "nan"
  | Some (Inf false) => "inf"
  | Some (Inf true) => "-inf"
  | Some (Fin q) =>
      let c := round_half_even (Qabs q * (100 # 1))%Q in
      let frac := (c mod 100)%Z in
      ((if Qlt_le_dec q (0 # 1) then "-" else "")
         ++ decimal (c / 100)%Z ++ "."
         ++ (if (frac <? 10)%Z then "0" else "") ++ decimal frac)%string
  end.

(** The numeric columns of line 223. *)
Inductive numeric_col := col_Likes | col_Retweets | col_Hour.

Definition numeric_cols : list numeric_col :=
  [col_Likes; col_Retweets; col_Hour].

(** [df[c]] as floats. *)
Definition column (c : numeric_col) (df : DataFrame) : list float :=
  map (fun r =>
         match c with
         | col_Likes => Likes r
         | col_Retweets => Retweets r
         | col_Hour => Fin (inject_Z (Hour r))
         end) df.

(** The values of a column when none is infinite. *)
Fixpoint finite_values (l : list float) : option (list Q) :=
  match l with
  | [] => Some []
  | Fin q :: l' => option_map (cons q) (finite_values l')
  | Inf _ :: _ => None
  end.

Definition sumQ (l : list Q) : Q := fold_right Qplus (0 # 1)%Q l.

(** The length of a column as a rational. *)
Definition count_of (l : list Q) : Q := inject_Z (Z.of_nat (List.length l)).

(** Sum of the products of the deviations from the column means. *)
Definition co_moment (xs ys : list Q) : Q :=
  let mx := (sumQ xs / count_of xs)%Q in
  let my := (sumQ ys / count_of ys)%Q in
  sumQ (map (fun p => ((fst p - mx) * (snd p - my))%Q) (combine xs ys)).

(** Pearson's coefficient of two finite columns as [DataFrame.corr()]
    computes it: the co-moment over the root of the product of the two
    sums of squares, and NaN when that divisor is zero.  The arithmetic is
    exact.  Binary64 agrees with it on whether the divisor is zero, and on
    the value of a diagonal entry, for columns of whole numbers of
    moderate size ([whole_count]): their sums, means times the count and
    squared deviations lose too little to rounding to confuse the two. *)
Definition pearson_finite (xs ys : list Q) : option R :=
  let ssx := co_moment xs xs in
  let ssy := co_moment ys ys in
  if Qeq_bool (ssx * ssy)%Q (0 # 1)%Q
  then None
  else Some (Q2R (co_moment xs ys) / sqrt (Q2R (ssx * ssy)%Q))%R.

(** The rows [DataFrame.corr()] keeps for a pair of columns: those whose
    two cells are both finite. *)
Fixpoint finite_pairs (xs ys : list float) : list (Q * Q) :=
  match xs, ys with
  | Fin x :: xs', Fin y :: ys' => (x, y) :: finite_pairs xs' ys'
  | _ :: xs', _ :: ys' => finite_pairs xs' ys'
  | _, _ => []
  end.

(** The coefficient of two columns: cells that are not finite are masked
    pair by pair, and the coefficient is taken over the rows that are
    left. *)
Definition pearson (xs ys : list float) : option R :=
  let rows := finite_pairs xs ys in
  pearson_finite (map fst rows) (map snd rows).

Definition corr_entry (df : DataFrame) (a b : numeric_col) : option R :=
  pearson (column a df) (column b df).

(** Line 225: [filtered_df[numeric_cols].corr()], row by row. *)
Definition corr_matrix (df : DataFrame) : list (list (option R)) :=
  map (fun a => map (fun b => corr_entry df a b) numeric_cols) numeric_cols.

(* ================================================================== *)
(** * Loader (lines 29-45) *)
(* ================================================================== *)

(** One row of the frame [pd.read_csv] returns, restricted to the seven
    columns the script reads.  A cell is [None] when the frame holds NaN
    there and [Some s] when it holds a value that [str] prints as [s]; in
    the three numeric columns [s] is what [to_numeric] reads.  How
    [read_csv] gets from the text of the file to these cells (numbers
    parsed, markers of missing data recognised) is outside the model. *)
Record RawRow := mkRaw {
  raw_Sentiment : option pystr;
  raw_Platform  : option pystr;
  raw_Country   : option pystr;
  raw_Hashtags  : option pystr;
  raw_Hour      : option pystr;
  raw_Likes     : option pystr;
  raw_Retweets  : option pystr
}.

(** The seven columns, in the order lines 34-40 read them. *)
Inductive column_name :=
| c_Sentiment | c_Platform | c_Country | c_Hashtags
| c_Hour | c_Likes | c_Retweets.

(** Outcome of [pd.read_csv(file_path)]: an exception with its message; a
    frame that carries the seven columns, given by its rows; or a frame
    that lacks some of them, given by the first it lacks in the order of
    lines 34-40 and by its rows (a cell of a column the frame lacks is
    [None]; the loader stops before it would read one). *)
Inductive read_result :=
| ReadError (message : string)
| ReadOk (rows : list RawRow)
| ReadLacking (absent : column_name) (rows : list RawRow).

(** What the script shows: Streamlit calls in the order they are made
    (columns and tabs only place them on the page). *)
Inductive figure :=
| px_pie (values : list nat) (names : list pystr)
| px_box (data : DataFrame)
| px_bar_table (table : list ((pystr * pystr) * nat))
| px_scatter (data : DataFrame)
| px_line (x : list Z) (y : list nat)
| px_bar (title : string) (x : list pystr) (y : list nat)
| px_imshow (matrix : list (list (option R))).

Inductive element :=
| st_markdown (body : string)
| st_sidebar_header (body : string)
| st_sidebar_multiselect (label : string) (options : list pystr)
| st_title (body : string)
| st_subheader (body : string)
| st_metric (label value delta : string)
| st_plotly_chart (fig : figure)
| st_warning (body : string)
| st_error (body : string).

(** [Series.astype(str)] on an object cell: NaN becomes the text ["nan"]. *)
Definition astype_str (c : option pystr) : pystr :=
  match c with
  | Some s => s
  | None => py "nan"
  end.

(** [Series.fillna(value)] on one cell. *)
Definition fillna (value : float) (c : option float) : float :=
  match c with
  | Some x => x
  | None => value
  end.

(** [Series.astype(int)] on one cell that is not NaN: truncation toward
    zero, and an exception on an infinity ([None]).  This is the cast of
    the code for a value whose magnitude is below 2^63; what the code
    makes of a larger one is left out of the model, and the statements on
    the cast carry that bound. *)
Definition astype_int (x : float) : option Z :=
  match x with
  | Fin q => Some (Z.quot (Qnum q) (Zpos (Qden q)))
  | Inf _ => None
  end.

(** The message of the exception [astype(int)] raises. *)
Definition cast_message : string :=
  "Cannot convert non-finite values (NA or inf) to integer".

Definition column_label (c : column_name) : string :=
  match c with
  | c_Sentiment => "Sentiment"
  | c_Platform => "Platform"
  | c_Country => "Country"
  | c_Hashtags => "Hashtags"
  | c_Hour => "Hour"
  | c_Likes => "Likes"
  | c_Retweets => "Retweets"
  end.

(** [str(e)] for the [KeyError] of a column the frame lacks: its name
    between single quotes. *)
Definition key_error_message (c : column_name) : string :=
  ("'" ++ column_label c ++ "'")%string.

(** Whether line 38, the cast of Hour, runs before the column is read. *)
Definition read_after_cast (c : column_name) : bool :=
  match c with
  | c_Likes | c_Retweets => true
  | _ => false
  end.

Section Loader.

(** pandas' reading of one field as a number; [None] when the text is not
    a number. *)
Variable to_numeric : pystr -> option float.

(** [pd.to_numeric(column, errors='coerce')] on one cell: a missing field
    and a text that is not a number both give NaN. *)
Definition to_numeric_coerce (c : option pystr) : option float :=
  match c with
  | Some s => to_numeric s
  | None => None
  end.

(** Lines 34-40 on one row; [None] when line 38 raises on it. *)
Definition convert (r : RawRow) : option Post :=
  match astype_int (fillna (Fin (0 # 1))
                           (to_numeric_coerce (raw_Hour r))) with
  | Some hour =>
      Some {| Sentiment := astype_str (raw_Sentiment r);
              Platform := astype_str (raw_Platform r);
              Country := astype_str (raw_Country r);
              Hashtags := Some (astype_str (raw_Hashtags r));
              Hour := hour;
              Likes := fillna (Fin (0 # 1))
                              (to_numeric_coerce (raw_Likes r));
              Retweets := fillna (Fin (0 # 1))
                                 (to_numeric_coerce (raw_Retweets r)) |}
  | None => None
  end.

(** Lines 34-40 on the frame: the conversions are column-wise, so one
    row that raises fails them all. *)
Fixpoint convert_all (rows : list RawRow) : option DataFrame :=
  match rows with
  | [] => Some []
  | r :: rows' =>
      match convert r, convert_all rows' with
      | Some p, Some df => Some (p :: df)
      | _, _ => None
      end
  end.

(** [load_data]: the frame, or [None] after reporting the exception; the
    second component is what the function itself shows.  On a frame that
    lacks a column the exception is the [KeyError] of that column, unless
    the cast of line 38 comes before it and raises. *)
Definition load_data (src : read_result) : option DataFrame * list element :=
  match src with
  | ReadOk rows =>
      match convert_all rows with
      | Some df => (Some df, [])
      | None =>
          (None, [st_error ("Error loading data: " ++ cast_message)%string])
      end
  | ReadLacking absent rows =>
      match read_after_cast absent, convert_all rows with
      | true, None =>
          (None, [st_error ("Error loading data: " ++ cast_message)%string])
      | _, _ =>
          (None, [st_error ("Error loading data: "
                            ++ key_error_message absent)%string])
      end
  | ReadError e => (None, [st_error ("Error loading data: " ++ e)%string])
  end.

End Loader.

(** A reading of plain decimal literals, [[+-]digits[.digits]], and of
    [inf]: the part of pandas' number syntax the examples below use. *)
Definition digit (c : pychar) : option Z :=
  if ((48 <=? c) && (c <=? 57))%N then Some (Z.of_N (c - 48)) else None.

Fixpoint digits (acc : Z) (s : pystr) : option (Z * nat) :=
  match s with
  | [] => Some (acc, 0)
  | c :: s' =>
      match digit c with
      | Some d =>
          match digits (10 * acc + d)%Z s' with
          | Some (v, n) => Some (v, S n)
          | None => None
          end
      | None => None
      end
  end.

(** Integer part read so far in [acc]; [seen] tells whether it has a
    digit. *)
Fixpoint unsigned_literal (seen : bool) (acc : Z) (s : pystr) : option Q :=
  match s with
  | [] => if seen then Some (inject_Z acc) else None
  | c :: s' =>
      match digit c with
      | Some d => unsigned_literal true (10 * acc + d)%Z s'
      | None =>
          if (c =? 46)%N && seen
          then match s', digits acc s' with
               | _ :: _, Some (v, n) =>
                   Some (Qred (v # Z.to_pos (10 ^ Z.of_nat n)))
               | _, _ => None
               end
          else None
      end
  end.

Definition decimal_literal (s : pystr) : option float :=
  if PyStr.eqb s (py "inf") then Some (Inf false)
  else if PyStr.eqb s (py "-inf") then Some (Inf true)
  else
    option_map Fin
      match s with
      | 45%N :: s' => option_map Qopp (unsigned_literal false 0%Z s')
      | 43%N :: s' => unsigned_literal false 0%Z s'
      | _ => unsigned_literal false 0%Z s
      end.

(* ================================================================== *)
(** * The page (lines 47-239) *)
(* ================================================================== *)

Definition dquote : string := String (ascii_of_nat 34) EmptyString.

(** ['<div class="metric-container">'] *)
Definition metric_open : string :=
  ("<div class=" ++ dquote ++ "metric-container" ++ dquote ++ ">")%string.

Definition metric_close : string := "</div>".

(** The three metrics of lines 83-96.  [len(filtered_df)] is shown as an
    integer, the two means through [f"{...:.2f}"]. *)
Definition metrics (filtered_df : DataFrame) : list element :=
  [ st_markdown metric_open;
    st_metric "Total Posts" (decimal (Z.of_nat (List.length filtered_df))) "🔢";
    st_markdown metric_close;
    st_markdown metric_open;
    st_metric "Avg Likes" (format_2f (mean (map Likes filtered_df))) "👍";
    st_markdown metric_close;
    st_markdown metric_open;
    st_metric "Avg Retweets" (format_2f (mean (map Retweets filtered_df))) "🔁";
    st_markdown metric_close ].

(** Lines 102-134. *)
Definition tab1 (filtered_df : DataFrame) : list element :=
  let sentiment_counts := sentiment_counts filtered_df in
  [ st_subheader "Sentiment Distribution";
    if negb (empty sentiment_counts)
    then st_plotly_chart
           (px_pie (map snd sentiment_counts) (map fst sentiment_counts))
    else st_warning "No sentiment data to display.";
    st_subheader "Engagement by Sentiment";
    if negb (empty filtered_df)
    then st_plotly_chart (px_box filtered_df)
    else st_warning "No data for box plot." ].

(** Lines 136-165.  [px.scatter(..., size="Likes")] takes the Likes as
    marker sizes and raises on a size that is not a non-negative real;
    the elements below are those of a view whose Likes all are, which the
    statements on this tab assume. *)
Definition tab2 (filtered_df : DataFrame) : list element :=
  let platform_sentiment := platform_sentiment filtered_df in
  [ st_subheader "Platform Performance";
    if negb (empty platform_sentiment)
    then st_plotly_chart (px_bar_table platform_sentiment)
    else st_warning "No platform data to display.";
    st_subheader "Retweets vs Likes";
    if negb (empty filtered_df)
    then st_plotly_chart (px_scatter filtered_df)
    else st_warning "No data for scatter plot." ].

(** Lines 167-198. *)
Definition tab3 (filtered_df : DataFrame) : list element :=
  let hour_counts := hour_counts filtered_df in
  let country_counts := country_counts filtered_df in
  [ st_subheader "Peak Posting Hours";
    if negb (empty hour_counts)
    then st_plotly_chart (px_line (map fst hour_counts) (map snd hour_counts))
    else st_warning "No hourly data available.";
    st_subheader "Top Countries";
    if negb (empty country_counts)
    then st_plotly_chart
           (px_bar "Top 10 Countries by Post Volume"
                   (map fst country_counts) (map snd country_counts))
    else st_warning "No country data to display." ].

(** Lines 200-233. *)
Definition tab4 (filtered_df : DataFrame) : list element :=
  let hashtag_counts := hashtag_counts filtered_df in
  [ st_subheader "Top Hashtags";
    if truthy hashtag_counts
    then st_plotly_chart
           (px_bar "Top 10 Hashtags"
                   (map fst hashtag_counts) (map snd hashtag_counts))
    else st_warning "No hashtags found.";
    st_subheader "Correlation Heatmap";
    if negb (empty filtered_df)
    then st_plotly_chart (px_imshow (corr_matrix filtered_df))
    else st_warning "Not enough data for correlation heatmap." ].

(** Lines 52-236: the branch taken for a loaded, non-empty frame.  The
    three selections are what the sidebar widgets return. *)
Definition page (df : DataFrame)
    (selected_platforms selected_sentiments selected_countries : list pystr)
    : list element :=
  let filtered_df :=
    filtered_df df selected_platforms selected_sentiments selected_countries in
  [ st_sidebar_header "🔍 Dashboard Filters";
    st_sidebar_multiselect "Select Platforms"
                           (unique PyStr.eqb (map Platform df));
    st_sidebar_multiselect "Select Sentiments"
                           (unique PyStr.eqb (map Sentiment df));
    st_sidebar_multiselect "Select Countries"
                           (unique PyStr.eqb (map Country df));
    st_title "📊 Sentiment Analysis Dashboard" ]
    ++ metrics filtered_df
    ++ tab1 filtered_df ++ tab2 filtered_df
    ++ tab3 filtered_df ++ tab4 filtered_df
    ++ [ st_markdown "---";
         st_markdown
           "📊 Sentiment Analysis Dashboard | Powered by Streamlit & Plotly" ].

Definition failed_message : string :=
  "Failed to load the dataset or dataset is empty.".

(** Lines 51 and 238-239: [if df is not None and not df.empty: ... else:
    st.error(...)]. *)
Definition dashboard (df : option DataFrame)
    (selected_platforms selected_sentiments selected_countries : list pystr)
    : list element :=
  match df with
  | Some d =>
      if negb (empty d)
      then page d selected_platforms selected_sentiments selected_countries
      else [st_error failed_message]
  | None => [st_error failed_message]
  end.

(** The whole run: load, then render. *)
Definition script (to_numeric : pystr -> option float) (src : read_result)
    (selected_platforms selected_sentiments selected_countries : list pystr)
    : list element :=
  let (df, shown) := load_data to_numeric src in
  shown ++ dashboard df selected_platforms selected_sentiments
                     selected_countries.

(* ================================================================== *)
(** * Vocabulary of the statements *)
(* ================================================================== *)

(** The three dimensions of the sidebar. *)
Inductive dimension := dim_Platform | dim_Sentiment | dim_Country.

Definition field (d : dimension) : Post -> pystr :=
  match d with
  | dim_Platform => Platform
  | dim_Sentiment => Sentiment
  | dim_Country => Country
  end.

(** The selection made on a dimension. *)
Definition selection (d : dimension)
    (selected_platforms selected_sentiments selected_countries : list pystr)
    : list pystr :=
  match d with
  | dim_Platform => selected_platforms
  | dim_Sentiment => selected_sentiments
  | dim_Country => selected_countries
  end.

(** One [if selected: filtered_df = filtered_df[...]] statement. *)
Definition step (d : dimension) (selected : list pystr) (df : DataFrame)
    : DataFrame :=
  if truthy selected then select_isin (field d) selected df else df.

(** Lines 68-77 with the statement of dimension [d] taken out: no filter on
    that dimension at all. *)
Definition filtered_without (d : dimension) (df : DataFrame)
    (selected_platforms selected_sentiments selected_countries : list pystr)
    : DataFrame :=
  match d with
  | dim_Platform =>
      step dim_Country selected_countries
           (step dim_Sentiment selected_sentiments df)
  | dim_Sentiment =>
      step dim_Country selected_countries
           (step dim_Platform selected_platforms df)
  | dim_Country =>
      step dim_Sentiment selected_sentiments
           (step dim_Platform selected_platforms df)
  end.

(** [l1] is [l2] with some elements left out, the others in place. *)
Inductive Subseq (A : Type) : list A -> list A -> Prop :=
| Subseq_nil : Subseq [] []
| Subseq_skip : forall x l1 l2, Subseq l1 l2 -> Subseq l1 (x :: l2)
| Subseq_keep : forall x l1 l2, Subseq l1 l2 -> Subseq (x :: l1) (x :: l2).

Definition Q_eq_dec (x y : Q) : {x = y} + {x <> y}.
Proof. decide equality; [apply Pos.eq_dec | apply Z.eq_dec]. Defined.

Definition float_eq_dec (x y : float) : {x = y} + {x <> y}.
Proof. decide equality; [apply Q_eq_dec | apply Bool.bool_dec]. Defined.

Definition pystr_eq_dec (x y : pystr) : {x = y} + {x <> y} :=
  list_eq_dec N.eq_dec x y.

Definition Post_eq_dec (x y : Post) : {x = y} + {x <> y}.
Proof.
  decide equality;
    try apply float_eq_dec; try apply Z.eq_dec; try apply pystr_eq_dec.
  decide equality; apply pystr_eq_dec.
Defined.

(** The rows of [a] that also occur in [b]. *)
Definition intersection (a b : DataFrame) : DataFrame :=
  filter (fun r => if in_dec Post_eq_dec r b then true else false) a.

(** Number of occurrences of a token. *)
Fixpoint frequency (t : pystr) (l : list pystr) : nat :=
  match l with
  | [] => 0
  | x :: l' => (if PyStr.eqb t x then 1 else 0) + frequency t l'
  end.

(** Position of the first occurrence of a token. *)
Fixpoint first_seen (t : pystr) (l : list pystr) : nat :=
  match l with
  | [] => 0
  | x :: l' => if PyStr.eqb t x then 0 else S (first_seen t l')
  end.

(** [a] ranks above [b]: it is more frequent, or as frequent and first
    seen earlier. *)
Definition outranks (tokens : list pystr) (a b : pystr) : Prop :=
  frequency b tokens < frequency a tokens
  \/ (frequency a tokens = frequency b tokens
      /\ first_seen a tokens < first_seen b tokens).

(** The tokens of the filtered records: each record's text split on
    whitespace, the pieces put end to end. *)
Definition tokens_of (filtered_df : DataFrame) : list pystr :=
  flat_map split (dropna (map Hashtags filtered_df)).

(** A non-negative real. *)
Definition nonneg_real (x : float) : Prop :=
  match x with
  | Fin q => (0 <= q)%Q
  | Inf _ => False
  end.

(** The ranges the data model gives for a record. *)
Definition in_range (p : Post) : Prop :=
  (0 <= Hour p <= 23)%Z /\ nonneg_real (Likes p) /\ nonneg_real (Retweets p).

(** [x] occurs before [y] in [l]. *)
Fixpoint before (A : Type) (x y : A) (l : list A) : Prop :=
  match l with
  | [] => False
  | z :: l' => (z = x /\ In y l') \/ before x y l'
  end.

(** Distinct elements in order of first appearance. *)
Fixpoint distinct (l : list pystr) : list pystr :=
  match l with
  | [] => []
  | x :: l' => x :: filter (fun y => negb (PyStr.eqb y x)) (distinct l')
  end.

(** The row test one statement of the pipeline amounts to. *)
Definition accepts (d : dimension) (selected : list pystr) (r : Post) : bool :=
  if truthy selected then isin (field d r) selected else true.

(** A filtered view on three concrete records, used as a running example. *)
Definition sample_post (sentiment platform country : string) : Post :=
  {| Sentiment := py sentiment; Platform := py platform;
     Country := py country; Hashtags := Some (py "#a #b");
     Hour := 5%Z; Likes := Fin (10 # 1); Retweets := Fin (2 # 1) |}.

Definition sample_df : DataFrame :=
  [ sample_post "Positive" "Twitter" "UK";
    sample_post "Negative" "Facebook" "India";
    sample_post "Positive" "Facebook" "UK" ].

(** A raw row whose text cells are filled and whose numeric cells hold the
    given field texts. *)
Definition raw_row (hour likes retweets : string) : RawRow :=
  {| raw_Sentiment := Some (py "Positive");
     raw_Platform := Some (py "Twitter");
     raw_Country := Some (py "UK");
     raw_Hashtags := Some (py "#fun");
     raw_Hour := Some (py hour);
     raw_Likes := Some (py likes);
     raw_Retweets := Some (py retweets) |}.

(** The Hour column [5, 5, 23, "bad"]. *)
Definition hours_csv : list RawRow :=
  [ raw_row "5" "1" "1"; raw_row "5" "1" "1";
    raw_row "23" "1" "1"; raw_row "bad" "1" "1" ].

(** Two posts that share no (Platform, Sentiment) pair. *)
Definition two_posts : DataFrame :=
  [ sample_post "Positive" "Twitter" "UK";
    sample_post "Negative" "Facebook" "India" ].

(** A row with a missing Hashtags field. *)
Definition raw_no_hashtags : RawRow :=
  {| raw_Sentiment := Some (py "Positive");
     raw_Platform := Some (py "Twitter");
     raw_Country := Some (py "UK");
     raw_Hashtags := None;
     raw_Hour := Some (py "7");
     raw_Likes := Some (py "3");
     raw_Retweets := Some (py "1") |}.

(** A row whose Hour is past the end of the day and whose Likes and
    Retweets are below zero. *)
Definition raw_out_of_range : RawRow := raw_row "25" "-5" "-1.5".

(** The values a raw row must carry for the loaded record to be within
    the ranges of the data model: a cell that reads as a number reads as
    one in range. *)
Definition raw_in_range (to_numeric : pystr -> option float) (r : RawRow)
    : Prop :=
  (forall x, to_numeric_coerce to_numeric (raw_Hour r) = Some x ->
             exists q, x = Fin q /\ (0 <= q)%Q /\ (q < 24 # 1)%Q)
  /\ (forall x, to_numeric_coerce to_numeric (raw_Likes r) = Some x ->
                nonneg_real x)
  /\ (forall x, to_numeric_coerce to_numeric (raw_Retweets r) = Some x ->
                nonneg_real x).

(** [x] has at least the count of [y]. *)
Definition count_ge (K : Type) (x y : K * nat) : Prop := snd y <= snd x.

(** A view whose hashtags tie in frequency. *)
Definition tagged_post (tags : string) : Post :=
  {| Sentiment := py "Positive"; Platform := py "Twitter";
     Country := py "UK"; Hashtags := Some (py tags);
     Hour := 9%Z; Likes := Fin (1 # 1); Retweets := Fin (0 # 1) |}.

Definition tagged_view : DataFrame :=
  [ tagged_post "#b #a"; tagged_post "#c  #a #b"; tagged_post "#d" ].

(** Two records that differ in Likes and agree in Retweets and Hour. *)
Definition varied_view : DataFrame :=
  [ {| Sentiment := py "Positive"; Platform := py "Twitter";
       Country := py "UK"; Hashtags := Some (py "#a");
       Hour := 5%Z; Likes := Fin (10 # 1); Retweets := Fin (2 # 1) |};
    {| Sentiment := py "Negative"; Platform := py "Twitter";
       Country := py "UK"; Hashtags := Some (py "#b");
       Hour := 5%Z; Likes := Fin (30 # 1); Retweets := Fin (2 # 1) |} ].

(** A view with eleven distinct hashtags. *)
Definition crowded_view : DataFrame :=
  [ tagged_post "#a #b #c #d #e #f"; tagged_post "#g #h #i #j #k #a" ].

(** The same Hashtags column under other sentiments. *)
Definition retagged_view : DataFrame :=
  map (fun p => {| Sentiment := py "Negative"; Platform := Platform p;
                   Country := Country p; Hashtags := Hashtags p;
                   Hour := Hour p; Likes := Likes p;
                   Retweets := Retweets p |}) tagged_view.

(** [c.get(k)] on the items of a dict: the count stored under [k]. *)
Fixpoint lookup (K : Type) (K_eqb : K -> K -> bool) (k : K)
    (c : list (K * nat)) : option nat :=
  match c with
  | [] => None
  | (k', n) :: c' => if K_eqb k k' then Some n else lookup K_eqb k c'
  end.

(** Number of elements of [l] equal to [k]. *)
Definition occurrences (K : Type) (K_eqb : K -> K -> bool) (k : K)
    (l : list K) : nat :=
  List.length (filter (K_eqb k) l).

(** Equality of (Platform, Sentiment) pairs, as [platform_sentiment] tests
    it. *)
Definition pair_eqb (a b : pystr * pystr) : bool :=
  PyStr.eqb (fst a) (fst b) && PyStr.eqb (snd a) (snd b).

(** The raw cell of a dimension. *)
Definition raw_field (d : dimension) : RawRow -> option pystr :=
  match d with
  | dim_Platform => raw_Platform
  | dim_Sentiment => raw_Sentiment
  | dim_Country => raw_Country
  end.

(** The label of the sidebar widget of a dimension. *)
Definition widget_label (d : dimension) : string :=
  match d with
  | dim_Platform => "Select Platforms"
  | dim_Sentiment => "Select Sentiments"
  | dim_Country => "Select Countries"
  end.

(** The eight fallback messages of the page, in the order of the charts. *)
Definition all_warnings : list string :=
  [ "No sentiment data to display."; "No data for box plot.";
    "No platform data to display."; "No data for scatter plot.";
    "No hourly data available."; "No country data to display.";
    "No hashtags found."; "Not enough data for correlation heatmap."
  ]%string.

(** The messages of the warnings a page shows, in order. *)
Fixpoint warnings (shown : list element) : list string :=
  match shown with
  | [] => []
  | st_warning w :: rest => w :: warnings rest
  | _ :: rest => warnings rest
  end.

(** The number of charts a page shows. *)
Fixpoint charts (shown : list element) : nat :=
  match shown with
  | [] => 0
  | st_plotly_chart _ :: rest => S (charts rest)
  | _ :: rest => charts rest
  end.

(** The errors a page shows, in order. *)
Fixpoint errors (shown : list element) : list string :=
  match shown with
  | [] => []
  | st_error e :: rest => e :: errors rest
  | _ :: rest => errors rest
  end.

(** A frame with a missing Platform field and an infinite Likes field. *)
Definition raw_no_platform : RawRow :=
  {| raw_Sentiment := Some (py "Positive");
     raw_Platform := None;
     raw_Country := Some (py "UK");
     raw_Hashtags := Some (py "#x");
     raw_Hour := Some (py "7");
     raw_Likes := Some (py "inf");
     raw_Retweets := Some (py "1") |}.

(** [wide] accepts every value [narrow] accepts: it is empty (no filter),
    or [narrow] is a non-empty part of it. *)
Definition widens (narrow wide : list pystr) : Prop :=
  wide = [] \/ (narrow <> [] /\ incl narrow wide).

(** Order of the index of a series of counts by hour. *)
Definition index_le (A : Type) (x y : Z * A) : Prop := (fst x <= fst y)%Z.

Definition index_lt (A : Type) (x y : Z * A) : Prop := (fst x < fst y)%Z.

(** A hashtag token: at least one character, none of them whitespace. *)
Definition clean_token (t : pystr) : Prop :=
  t <> [] /\ Forall (fun c => isspace c = false) t.

(** A text made of whitespace only. *)
Definition blank (s : pystr) : Prop := Forall (fun c => isspace c = true) s.

(** The finite values of a column, in order: the rows the correlation of
    the column with itself is taken over. *)
Fixpoint finite_part (l : list float) : list Q :=
  match l with
  | [] => []
  | Fin q :: l' => q :: finite_part l'
  | Inf _ :: l' => finite_part l'
  end.

(** Two of the values differ. *)
Definition varies (qs : list Q) : Prop :=
  exists x y, In x qs /\ In y qs /\ ~ (x == y)%Q.

(** A whole number of magnitude at most 2^20.  On columns of such values
    binary64 keeps a non-zero sum of squared deviations non-zero and far
    from overflow, so the exact coefficient and the computed one are
    numbers on the same views. *)
Definition whole_count (q : Q) : Prop :=
  exists z, (q == inject_Z z)%Q /\ (Z.abs z <= 2 ^ 20)%Z.

(** A float that is infinite or of magnitude at most 2^100: no sum of
    such finite values overflows binary64 on a frame that fits in
    memory. *)
Definition moderate (x : float) : Prop :=
  match x with
  | Fin q => (Qabs q <= inject_Z (2 ^ 100))%Q
  | Inf _ => True
  end.


(* ================================================================== *)
(** * Basic facts *)
(* ================================================================== *)

Lemma eqb_eq (s t : pystr) : PyStr.eqb s t = true <-> s = t.
Proof.
  revert t; induction s as [|c s IH]; intros [|d t]; simpl;
    try (split; [discriminate | congruence]); try tauto.
  rewrite andb_true_iff, N.eqb_eq, IH.
  split; [intros [-> ->]; reflexivity | intros [= -> ->]; auto].
Qed.

Lemma eqb_refl (s : pystr) : PyStr.eqb s s = true.
Proof. apply eqb_eq; reflexivity. Qed.

Lemma eqb_neq (s t : pystr) : PyStr.eqb s t = false <-> s <> t.
Proof.
  rewrite <- eqb_eq. destruct (PyStr.eqb s t); split; congruence.
Qed.

Lemma eqb_sym (s t : pystr) : PyStr.eqb s t = PyStr.eqb t s.
Proof.
  destruct (PyStr.eqb s t) eqn:E.
  - apply eqb_eq in E; subst; symmetry; apply eqb_refl.
  - destruct (PyStr.eqb t s) eqn:E'; [|reflexivity].
    apply eqb_eq in E'; subst. rewrite eqb_refl in E; discriminate.
Qed.

Lemma isin_In (x : pystr) (values : list pystr) :
  isin x values = true <-> In x values.
Proof.
  unfold isin. rewrite existsb_exists. split.
  - intros (y & Hy & E). apply eqb_eq in E; subst; assumption.
  - intros H; exists x; split; [assumption | apply eqb_refl].
Qed.

(* ================================================================== *)
(** * The filter *)
(* ================================================================== *)

Lemma step_filter d selected df :
  step d selected df = filter (accepts d selected) df.
Proof.
  unfold step, accepts, select_isin. destruct (truthy selected).
  - reflexivity.
  - induction df as [|r df IH]; simpl; [reflexivity | now rewrite <- IH].
Qed.

Lemma filtered_df_steps df sp ss sc :
  filtered_df df sp ss sc
  = step dim_Country sc (step dim_Sentiment ss (step dim_Platform sp df)).
Proof. reflexivity. Qed.

Lemma step_nil d df : step d [] df = df.
Proof. reflexivity. Qed.

Lemma filter_filter_and (A : Type) (p q : A -> bool) (l : list A) :
  filter q (filter p l) = filter (fun x => p x && q x) l.
Proof.
  induction l as [|x l IH]; simpl; [reflexivity|].
  destruct (p x); simpl; [destruct (q x)|]; now rewrite IH.
Qed.

Lemma filter_comm (A : Type) (p q : A -> bool) (l : list A) :
  filter q (filter p l) = filter p (filter q l).
Proof.
  rewrite !filter_filter_and. apply filter_ext. intros; apply andb_comm.
Qed.

Lemma step_comm d1 d2 s1 s2 df :
  step d2 s2 (step d1 s1 df) = step d1 s1 (step d2 s2 df).
Proof. rewrite !step_filter. apply filter_comm. Qed.

Create HintDb subseq.
#[local] Hint Constructors Subseq : subseq.

Lemma filter_Subseq (A : Type) (p : A -> bool) (l : list A) :
  Subseq (filter p l) l.
Proof.
  induction l as [|x l IH]; simpl; [auto with subseq|].
  destruct (p x); auto with subseq.
Qed.

Lemma Subseq_trans (A : Type) (l1 l2 l3 : list A) :
  Subseq l1 l2 -> Subseq l2 l3 -> Subseq l1 l3.
Proof.
  intros H12 H23; revert l1 H12.
  induction H23 as [|x l2 l3 H IH|x l2 l3 H IH]; intros l1 H12.
  - assumption.
  - auto with subseq.
  - inversion H12; subst; auto with subseq.
Qed.

Lemma Subseq_In (A : Type) (l1 l2 : list A) :
  Subseq l1 l2 -> forall x, In x l1 -> In x l2.
Proof.
  induction 1 as [|y l1 l2 H IH|y l1 l2 H IH]; simpl; intros x Hx; intuition.
Qed.

Lemma Subseq_length (A : Type) (l1 l2 : list A) :
  Subseq l1 l2 -> List.length l1 <= List.length l2.
Proof. induction 1; simpl; lia. Qed.

Lemma step_Subseq d selected df : Subseq (step d selected df) df.
Proof. rewrite step_filter; apply filter_Subseq. Qed.

Lemma filtered_df_Subseq df sp ss sc : Subseq (filtered_df df sp ss sc) df.
Proof.
  rewrite filtered_df_steps.
  eapply Subseq_trans; [apply step_Subseq|].
  eapply Subseq_trans; apply step_Subseq.
Qed.

Lemma filtered_df_filter df sp ss sc :
  filtered_df df sp ss sc
  = filter (fun r => accepts dim_Platform sp r
                     && (accepts dim_Sentiment ss r
                         && accepts dim_Country sc r)) df.
Proof.
  rewrite filtered_df_steps, !step_filter, !filter_filter_and. reflexivity.
Qed.

Lemma intersection_filters (p q : Post -> bool) (df : DataFrame) :
  filter q (filter p df) = intersection (filter p df) (filter q df).
Proof.
  unfold intersection. rewrite filter_filter_and.
  rewrite (filter_filter_and p
             (fun r => if in_dec Post_eq_dec r (filter q df)
                       then true else false)).
  apply filter_ext_in. intros r Hr.
  destruct (p r); simpl; [|reflexivity].
  destruct (in_dec Post_eq_dec r (filter q df)) as [H|H].
  - apply filter_In in H. tauto.
  - destruct (q r) eqn:E; [|reflexivity].
    exfalso; apply H. apply filter_In; auto.
Qed.

(** C1. Select-all: when the selection on a dimension is empty, the
    filtered view is the one the pipeline gives with no statement for that
    dimension, with the same records and the same count; the statement is
    skipped, whereas the empty-set restriction itself would keep nothing. *)
Theorem empty_selection_is_no_filter
    (df : DataFrame) (sp ss sc : list pystr) (d : dimension) :
  selection d sp ss sc = [] ->
  filtered_df df sp ss sc = filtered_without d df sp ss sc
  /\ List.length (filtered_df df sp ss sc)
     = List.length (filtered_without d df sp ss sc)
  /\ step d (selection d sp ss sc) df = df
  /\ select_isin (field d) (selection d sp ss sc) df = [].
Proof.
  intros Hsel.
  assert (E : filtered_df df sp ss sc = filtered_without d df sp ss sc).
  { rewrite filtered_df_steps.
    destruct d; simpl in Hsel; subst; simpl filtered_without;
      rewrite ?step_nil; reflexivity. }
  split; [exact E|]. split; [now rewrite E|].
  rewrite Hsel. split; [reflexivity|].
  unfold select_isin. clear E.
  induction df as [|r df IH]; simpl; [reflexivity | exact IH].
Qed.

Lemma empty_selection_is_no_filter_witness :
  filtered_df sample_df [] [py "Positive"] [py "UK"]
  = filtered_without dim_Platform sample_df [] [py "Positive"] [py "UK"]
  /\ List.length (filtered_df sample_df [] [py "Positive"] [py "UK"]) = 2.
Proof.
  destruct (@empty_selection_is_no_filter sample_df [] [py "Positive"]
              [py "UK"] dim_Platform eq_refl) as (H1 & H2 & _).
  split; [exact H1 | reflexivity].
Defined.

Lemma selection_nonempty_truthy (l : list pystr) : l <> [] -> truthy l = true.
Proof. destruct l; [congruence | reflexivity]. Qed.

Lemma filtered_df_accepts df sp ss sc r :
  In r (filtered_df df sp ss sc) <->
  In r df /\ accepts dim_Platform sp r = true
  /\ accepts dim_Sentiment ss r = true /\ accepts dim_Country sc r = true.
Proof.
  rewrite filtered_df_filter, filter_In, !andb_true_iff. tauto.
Qed.

(** C2. Filter correctness: for a non-empty selection on a dimension, every
    record of the filtered view has its value of that field among the
    selected ones; the filtered view is a subsequence of the loaded
    records, so their order is kept and every record comes from the
    dataset. *)
Theorem filter_correct
    (df : DataFrame) (sp ss sc : list pystr) (d : dimension) :
  selection d sp ss sc <> [] ->
  (forall r, In r (filtered_df df sp ss sc) ->
             In (field d r) (selection d sp ss sc))
  /\ Subseq (filtered_df df sp ss sc) df
  /\ (forall r, In r (filtered_df df sp ss sc) -> In r df)
  /\ List.length (filtered_df df sp ss sc) <= List.length df.
Proof.
  intros Hne. split; [|split; [|split]].
  - intros r Hr. apply filtered_df_accepts in Hr.
    destruct Hr as (_ & HP & HS & HC).
    apply selection_nonempty_truthy in Hne.
    destruct d; simpl in *; unfold accepts in *.
    + rewrite Hne in HP. now apply isin_In.
    + rewrite Hne in HS. now apply isin_In.
    + rewrite Hne in HC. now apply isin_In.
  - apply filtered_df_Subseq.
  - apply Subseq_In, filtered_df_Subseq.
  - apply Subseq_length, filtered_df_Subseq.
Qed.

Lemma filter_correct_witness :
  [py "Positive"] <> []
  /\ (forall r, In r (filtered_df sample_df [] [py "Positive"] []) ->
                In (Sentiment r) [py "Positive"])
  /\ List.length (filtered_df sample_df [] [py "Positive"] []) = 2.
Proof.
  assert (Hne : selection dim_Sentiment [] [py "Positive"] [] <> [])
    by discriminate.
  split; [exact Hne|]. split; [|reflexivity].
  exact (proj1 (@filter_correct sample_df [] [py "Positive"] []
                  dim_Sentiment Hne)).
Defined.

(** C3. AND composition: applying the statements of two dimensions one
    after the other gives the intersection of the views each gives alone
    on the full dataset, whichever comes first; a record is in the
    filtered view exactly when it is in each of the three single-dimension
    views. *)
Theorem filters_compose_by_intersection
    (df : DataFrame) (sp ss sc : list pystr) :
  filtered_df df sp ss []
  = intersection (filtered_df df sp [] []) (filtered_df df [] ss [])
  /\ filtered_df df sp [] sc
     = intersection (filtered_df df sp [] []) (filtered_df df [] [] sc)
  /\ filtered_df df [] ss sc
     = intersection (filtered_df df [] ss []) (filtered_df df [] [] sc)
  /\ (forall d1 d2 s1 s2,
        step d2 s2 (step d1 s1 df)
        = intersection (step d1 s1 df) (step d2 s2 df)
        /\ step d2 s2 (step d1 s1 df) = step d1 s1 (step d2 s2 df))
  /\ (forall r, In r (filtered_df df sp ss sc) <->
                In r (filtered_df df sp [] [])
                /\ In r (filtered_df df [] ss [])
                /\ In r (filtered_df df [] [] sc)).
Proof.
  assert (Hpair : forall d1 d2 s1 s2,
             step d2 s2 (step d1 s1 df)
             = intersection (step d1 s1 df) (step d2 s2 df)).
  { intros. rewrite !step_filter. apply intersection_filters. }
  assert (Hview : forall d s r,
             In r (step d s df) <-> In r df /\ accepts d s r = true).
  { intros. rewrite step_filter. apply filter_In. }
  rewrite !filtered_df_steps, !step_nil.
  split; [apply Hpair|]. split; [apply Hpair|]. split; [apply Hpair|].
  split; [intros; split; [apply Hpair | apply step_comm]|].
  intros r. rewrite <- filtered_df_steps, filtered_df_accepts, !Hview.
  tauto.
Qed.

(* ================================================================== *)
(** * The loader *)
(* ================================================================== *)

Section LoaderFacts.

Variable to_numeric : pystr -> option float.

(** Line 38 raises on a row exactly when its Hour reads as an infinity. *)
Lemma convert_None (r : RawRow) :
  convert to_numeric r = None
  <-> exists neg, to_numeric_coerce to_numeric (raw_Hour r) = Some (Inf neg).
Proof.
  unfold convert.
  destruct (to_numeric_coerce to_numeric (raw_Hour r)) as [[q|neg]|]; simpl.
  - split; [discriminate | intros (neg & H); discriminate].
  - split; [intros _; now exists neg | reflexivity].
  - split; [discriminate | intros (neg & H); discriminate].
Qed.

Lemma convert_all_rows (rows : list RawRow) (df : DataFrame) :
  convert_all to_numeric rows = Some df
  <-> Forall2 (fun r p => convert to_numeric r = Some p) rows df.
Proof.
  revert df; induction rows as [|r rows IH]; intros df; simpl.
  - split; [intros [= <-]; constructor | intros H; now inversion H].
  - destruct (convert to_numeric r) as [p|] eqn:Ep.
    + destruct (convert_all to_numeric rows) as [df'|].
      * split.
        -- intros [= <-]. constructor; [assumption | now apply IH].
        -- intros H. inversion H as [|? q ? df'' Hq Hrest]; subst.
           apply (proj2 (IH _)) in Hrest. injection Hrest as ->.
           rewrite Ep in Hq. injection Hq as ->. reflexivity.
      * split; [discriminate|].
        intros H. inversion H as [|? q ? df'' Hq Hrest]; subst.
        apply (proj2 (IH _)) in Hrest. discriminate.
    + split; [discriminate|].
      intros H. inversion H; subst. congruence.
Qed.

Lemma convert_all_total (rows : list RawRow) :
  (forall r, In r rows -> convert to_numeric r <> None) ->
  exists df, convert_all to_numeric rows = Some df.
Proof.
  induction rows as [|r rows IH]; simpl; intros H; [now exists []|].
  destruct (convert to_numeric r) as [p|] eqn:Ep.
  - destruct IH as (df & ->); [auto|]. now exists (p :: df).
  - exfalso. apply (H r); auto.
Qed.

Lemma load_data_ok (rows : list RawRow) (df : DataFrame) :
  convert_all to_numeric rows = Some df <->
  load_data to_numeric (ReadOk rows) = (Some df, []).
Proof.
  unfold load_data. destruct (convert_all to_numeric rows).
  - split; congruence.
  - split; discriminate.
Qed.

Lemma load_data_rows (rows : list RawRow) (df : DataFrame) shown :
  load_data to_numeric (ReadOk rows) = (Some df, shown) ->
  Forall2 (fun r p => convert to_numeric r = Some p) rows df /\ shown = [].
Proof.
  unfold load_data. destruct (convert_all to_numeric rows) eqn:E.
  - intros [= <- <-]. split; [now apply convert_all_rows | reflexivity].
  - discriminate.
Qed.

(** The load of a CSV that was read fails exactly when a Hour field reads
    as an infinity. *)
Lemma load_data_fails (rows : list RawRow) :
  fst (load_data to_numeric (ReadOk rows)) = None
  <-> exists r neg,
        In r rows
        /\ to_numeric_coerce to_numeric (raw_Hour r) = Some (Inf neg).
Proof.
  split.
  - intros H.
    destruct (List.Exists_dec
                (fun r => convert to_numeric r = None) rows) as [E|E].
    + intros r. destruct (convert to_numeric r); [right | left]; congruence.
    + apply Exists_exists in E. destruct E as (r & Hr & E).
      apply convert_None in E. destruct E as (neg & E). now exists r, neg.
    + destruct (convert_all_total rows) as (df & Hdf).
      * intros r Hr E'. apply E, Exists_exists. now exists r.
      * apply load_data_ok in Hdf. rewrite Hdf in H. discriminate.
  - intros (r & neg & Hr & E).
    destruct (load_data to_numeric (ReadOk rows)) as [[df|] shown] eqn:L;
      [|reflexivity].
    apply load_data_rows in L. destruct L as (L & _).
    exfalso. revert r Hr E.
    induction L as [|r0 p rows df Hp _ IH]; intros r [].
    + subst. intros E.
      assert (convert to_numeric r = None)
        by (apply convert_None; now exists neg).
      congruence.
    + now apply IH.
Qed.

Lemma Forall2_length_eq (A B : Type) (P : A -> B -> Prop) l1 l2 :
  Forall2 P l1 l2 -> List.length l1 = List.length l2.
Proof. induction 1; simpl; congruence. Qed.

End LoaderFacts.

Lemma astype_int_range (q : Q) :
  (0 <= q)%Q -> (q < 24 # 1)%Q ->
  exists h, astype_int (Fin q) = Some h /\ (0 <= h <= 23)%Z.
Proof.
  destruct q as [n d]. unfold Qle, Qlt, astype_int; simpl.
  intros H0 H24. eexists; split; [reflexivity|].
  assert (Hn : (0 <= n)%Z) by lia.
  split.
  - apply Z.quot_pos; lia.
  - rewrite Z.quot_div_nonneg by lia.
    assert (n / Z.pos d < 24)%Z; [|lia].
    apply Z.div_lt_upper_bound; lia.
Qed.

(** C6. Lenient parsing: a Hour, Likes or Retweets field that does not
    read as a number is loaded as 0, and never fails the load: a CSV that
    was read loads, with one record per row and no error shown, unless a
    Hour field reads as an infinity.  The Hour column [5, 5, 23, "bad"]
    loads as [5, 5, 23, 0], and the per-hour count of hour 5 is 2. *)
Theorem malformed_numeric_coerced_to_zero
    (to_numeric : pystr -> option float) (rows : list RawRow) :
  (forall r,
      (to_numeric_coerce to_numeric (raw_Hour r) = None ->
       exists p, convert to_numeric r = Some p /\ Hour p = 0%Z)
      /\ (forall p, convert to_numeric r = Some p ->
            (to_numeric_coerce to_numeric (raw_Likes r) = None ->
             Likes p = Fin (0 # 1))
            /\ (to_numeric_coerce to_numeric (raw_Retweets r) = None ->
                Retweets p = Fin (0 # 1))))
  /\ ((forall r neg, In r rows ->
         to_numeric_coerce to_numeric (raw_Hour r) <> Some (Inf neg)) ->
      exists df,
        load_data to_numeric (ReadOk rows) = (Some df, [])
        /\ Forall2 (fun r p => convert to_numeric r = Some p) rows df
        /\ List.length df = List.length rows)
  /\ (exists df,
        load_data decimal_literal (ReadOk hours_csv) = (Some df, [])
        /\ map Hour df = [5; 5; 23; 0]%Z
        /\ hour_counts df = [(0%Z, 1); (5%Z, 2); (23%Z, 1)]
        /\ In (5%Z, 2) (hour_counts df)).
Proof.
  split; [|split].
  - intros r. split.
    + intros H. unfold convert. rewrite H. simpl. eauto.
    + intros p. unfold convert.
      destruct (astype_int _); [|discriminate].
      intros [= <-]; simpl. split; intros ->; reflexivity.
  - intros Hfin.
    destruct (convert_all_total to_numeric rows) as (df & Hdf).
    { intros r Hr E. apply convert_None in E. destruct E as (neg & E).
      exact (Hfin r neg Hr E). }
    exists df. split; [now apply load_data_ok|].
    apply convert_all_rows in Hdf. split; [exact Hdf|].
    symmetry. eapply Forall2_length_eq; exact Hdf.
  - eexists. split; [reflexivity|].
    split; [reflexivity|]. split; [reflexivity|].
    vm_compute. tauto.
Qed.

Lemma malformed_numeric_coerced_to_zero_witness :
  to_numeric_coerce decimal_literal (raw_Hour (raw_row "bad" "x" "")) = None
  /\ (exists p, convert decimal_literal (raw_row "bad" "x" "") = Some p
                /\ Hour p = 0%Z /\ Likes p = Fin (0 # 1)
                /\ Retweets p = Fin (0 # 1))
  /\ (exists df, load_data decimal_literal (ReadOk hours_csv) = (Some df, [])
                 /\ List.length df = 4).
Proof.
  destruct (malformed_numeric_coerced_to_zero decimal_literal hours_csv)
    as (Hrow & Hload & _).
  split; [reflexivity|]. split.
  - destruct (Hrow (raw_row "bad" "x" "")) as (HH & HLR).
    destruct (HH eq_refl) as (p & Hp & Hhour).
    destruct (HLR p Hp) as (HL & HR).
    exists p. split; [exact Hp|]. split; [exact Hhour|].
    split; [apply HL; reflexivity | apply HR; reflexivity].
  - destruct Hload as (df & Hdf & _ & Hlen).
    + intros r neg Hr.
      repeat (destruct Hr as [<-|Hr]; [vm_compute; discriminate|]).
      destruct Hr.
    + exists df. split; [exact Hdf | exact Hlen].
Defined.




(** An infinite Hour makes line 38 raise: the loader reports the
    exception and the page is the one of a failed load. *)
Lemma infinite_hour_fails_the_load :
  script decimal_literal (ReadOk [raw_row "inf" "1" "1"]) [] [] []
  = [ st_error ("Error loading data: " ++ cast_message)%string;
      st_error failed_message ].
Proof. reflexivity. Qed.

(* ================================================================== *)
(** * The page on an empty dataset and on an empty view *)
(* ================================================================== *)

(** C4, as stated, fails: on a CSV with a header and no data row the page
    is the single error of line 239, and no metric is shown. *)
Lemma empty_csv_shows_no_metric :
  script decimal_literal (ReadOk []) [] [] [] = [st_error failed_message]
  /\ ~ (exists label value delta,
          In (st_metric label value delta)
             (script decimal_literal (ReadOk []) [] [] [])).
Proof.
  split; [reflexivity|].
  intros (label & value & delta & [H|[]]). discriminate H.
Qed.

(** C4, amended. A CSV with a header and no data row loads without an
    exception ([load_data] returns an empty frame and reports nothing), but
    the guard of line 51 sends an empty frame to the branch of a failed
    load: the page is the single message "Failed to load the dataset or
    dataset is empty." and neither metrics nor charts are rendered. *)
Theorem empty_csv_reported_as_empty
    (to_numeric : pystr -> option float) (sp ss sc : list pystr) :
  load_data to_numeric (ReadOk []) = (Some [], [])
  /\ script to_numeric (ReadOk []) sp ss sc = [st_error failed_message]
  /\ dashboard (Some []) sp ss sc = dashboard None sp ss sc.
Proof. repeat split. Qed.

Lemma metrics_of_empty_view :
  metrics []
  = [ st_markdown metric_open; st_metric "Total Posts" "0" "🔢";
      st_markdown metric_close;
      st_markdown metric_open; st_metric "Avg Likes" "nan" "👍";
      st_markdown metric_close;
      st_markdown metric_open; st_metric "Avg Retweets" "nan" "🔁";
      st_markdown metric_close ].
Proof. reflexivity. Qed.

(** On any empty view of a loaded frame the two mean metrics read "nan". *)
Lemma empty_view_metrics (df : DataFrame) (sp ss sc : list pystr) :
  df <> [] -> filtered_df df sp ss sc = [] ->
  In (st_metric "Avg Likes" "nan" "👍") (dashboard (Some df) sp ss sc)
  /\ In (st_metric "Avg Retweets" "nan" "🔁") (dashboard (Some df) sp ss sc).
Proof.
  intros Hdf E. unfold dashboard.
  destruct df as [|p df]; [congruence|]. cbn [empty negb].
  unfold page. rewrite E, metrics_of_empty_view.
  split; apply in_or_app; right; apply in_or_app; left; simpl; tauto.
Qed.

(** C5 on the code: with platform Twitter and sentiment Negative selected
    on [two_posts] the filtered view is empty, and the two mean metrics
    show the text "nan", whereas every chart of the page is replaced by a
    warning. *)
Theorem empty_view_means_shown_as_nan :
  let view := filtered_df two_posts [py "Twitter"] [py "Negative"] [] in
  let shown := dashboard (Some two_posts) [py "Twitter"] [py "Negative"] [] in
  view = []
  /\ In (st_metric "Avg Likes" "nan" "👍") shown
  /\ In (st_metric "Avg Retweets" "nan" "🔁") shown
  /\ In (st_warning "No data for box plot.") shown
  /\ In (st_warning "No sentiment data to display.") shown
  /\ In (st_warning "Not enough data for correlation heatmap.") shown.
Proof.
  cbv zeta.
  assert (E : filtered_df two_posts [py "Twitter"] [py "Negative"] [] = [])
    by reflexivity.
  destruct (@empty_view_metrics two_posts [py "Twitter"] [py "Negative"] [])
    as (HL & HR); [discriminate | exact E |].
  split; [exact E|]. split; [exact HL|]. split; [exact HR|].
  unfold dashboard, page. rewrite E. simpl negb. cbv iota.
  rewrite metrics_of_empty_view.
  unfold tab1, tab2, tab3, tab4, sentiment_counts. simpl.
  intuition.
Qed.

(* ================================================================== *)
(** * Splitting and joining *)
(* ================================================================== *)

Lemma split_aux_sep (cur s rest : pystr) :
  split_aux cur (s ++ space :: rest) = split_aux cur s ++ split rest.
Proof.
  revert cur; induction s as [|c s IH]; intros cur; simpl.
  - destruct cur; reflexivity.
  - destruct (isspace c).
    + destruct cur; simpl; now rewrite IH.
    + apply IH.
Qed.

Lemma split_sep (s rest : pystr) :
  split (s ++ space :: rest) = split s ++ split rest.
Proof. apply split_aux_sep. Qed.

(** Splitting the joined texts is splitting each text and putting the
    pieces end to end. *)
Lemma split_join (texts : list pystr) :
  split (join [space] texts) = flat_map split texts.
Proof.
  induction texts as [|t texts IH]; [reflexivity|].
  destruct texts as [|t' texts].
  - simpl. now rewrite app_nil_r.
  - change (join [space] (t :: t' :: texts))
      with (t ++ space :: join [space] (t' :: texts)).
    rewrite split_sep, IH. reflexivity.
Qed.

Lemma hashtag_list_tokens (view : DataFrame) :
  hashtag_list view = tokens_of view.
Proof. apply split_join. Qed.

Lemma In_dropna (A : Type) (x : A) (l : list (option A)) :
  In x (dropna l) <-> In (Some x) l.
Proof.
  induction l as [|[y|] l IH]; simpl.
  - tauto.
  - rewrite IH. split; intros [H|H]; auto; left; congruence.
  - rewrite IH. split; [auto | intros [H|H]; [discriminate | auto]].
Qed.

(* ================================================================== *)
(** * Order of occurrence *)
(* ================================================================== *)

Lemma before_In (A : Type) (x y : A) (l : list A) :
  before x y l -> In x l /\ In y l.
Proof.
  induction l as [|z l IH]; simpl; [tauto|].
  intros [[-> H]|H]; [auto | destruct (IH H); auto].
Qed.

Lemma before_app (A : Type) (x y : A) (l1 l2 : list A) :
  In x l1 -> In y l2 -> before x y (l1 ++ l2).
Proof.
  induction l1 as [|z l1 IH]; simpl; [tauto|].
  intros [->|Hx] Hy.
  - left; split; [reflexivity | apply in_or_app; auto].
  - right; auto.
Qed.

Lemma before_app_l (A : Type) (x y : A) (l1 l2 : list A) :
  before x y l1 -> before x y (l1 ++ l2).
Proof.
  induction l1 as [|z l1 IH]; simpl; [tauto|].
  intros [[-> H]|H]; [left; split; auto; apply in_or_app; auto | right; auto].
Qed.

Lemma before_filter (A : Type) (p : A -> bool) (x y : A) (l : list A) :
  before x y (filter p l) -> before x y l /\ p x = true /\ p y = true.
Proof.
  induction l as [|z l IH]; simpl; [tauto|].
  destruct (p z) eqn:Ez; simpl.
  - intros [[-> H]|H].
    + apply filter_In in H. tauto.
    + destruct (IH H) as (? & ? & ?); auto.
  - intros H. destruct (IH H) as (? & ? & ?); auto.
Qed.

Lemma before_map (A B : Type) (f : A -> B) (p q : B) (l : list A) :
  before p q (map f l) ->
  exists x y, f x = p /\ f y = q /\ before x y l.
Proof.
  induction l as [|z l IH]; simpl; [tauto|].
  intros [[E H]|H].
  - apply in_map_iff in H. destruct H as (y & Ey & Hy).
    exists z, y. auto.
  - destruct (IH H) as (x & y & ? & ? & ?). exists x, y. auto.
Qed.

Lemma nth_error_before (A : Type) (l : list A) (i j : nat) (a b : A) :
  i < j -> nth_error l i = Some a -> nth_error l j = Some b -> before a b l.
Proof.
  revert i j; induction l as [|z l IH]; intros [|i] [|j] Hij Ha Hb;
    simpl in *; try discriminate; try lia.
  - left. split; [congruence | eapply nth_error_In; eauto].
  - right. apply (IH i j); auto; lia.
Qed.

(* ================================================================== *)
(** * Counting tokens *)
(* ================================================================== *)

Lemma frequency_snoc (t k : pystr) (l : list pystr) :
  frequency t (l ++ [k])
  = frequency t l + (if PyStr.eqb t k then 1 else 0).
Proof. induction l as [|x l IH]; simpl; [lia | rewrite IH; lia]. Qed.

Lemma frequency_notin (t : pystr) (l : list pystr) :
  ~ In t l -> frequency t l = 0.
Proof.
  induction l as [|x l IH]; simpl; [reflexivity|].
  intros H. destruct (PyStr.eqb t x) eqn:E.
  - apply eqb_eq in E. subst. tauto.
  - apply IH. tauto.
Qed.

Lemma frequency_in (t : pystr) (l : list pystr) :
  In t l -> 0 < frequency t l.
Proof.
  induction l as [|x l IH]; simpl; [tauto|].
  intros [->|H]; [rewrite eqb_refl; lia | specialize (IH H); lia].
Qed.

Lemma In_distinct (x : pystr) (l : list pystr) :
  In x (distinct l) <-> In x l.
Proof.
  induction l as [|y l IH]; simpl; [tauto|].
  rewrite filter_In, IH, negb_true_iff, eqb_neq.
  destruct (pystr_eq_dec y x); intuition congruence.
Qed.

Lemma NoDup_distinct (l : list pystr) : NoDup (distinct l).
Proof.
  induction l as [|y l IH]; simpl; constructor.
  - rewrite filter_In, negb_true_iff, eqb_neq. tauto.
  - now apply NoDup_filter.
Qed.

Lemma distinct_snoc (k : pystr) (l : list pystr) :
  distinct (l ++ [k]) = if isin k l then distinct l else distinct l ++ [k].
Proof.
  induction l as [|y l IH]; [reflexivity|].
  change (isin k (y :: l)) with (PyStr.eqb k y || isin k l).
  simpl. rewrite IH. destruct (isin k l).
  - now rewrite orb_true_r.
  - rewrite orb_false_r, filter_app. simpl.
    destruct (PyStr.eqb k y); simpl; [now rewrite app_nil_r | reflexivity].
Qed.

Lemma first_seen_before (a b : pystr) (l : list pystr) :
  before a b (distinct l) -> first_seen a l < first_seen b l.
Proof.
  induction l as [|y l IH]; simpl; [tauto|].
  intros [[-> H]|H].
  - apply filter_In in H. destruct H as (_ & H).
    apply negb_true_iff in H. rewrite eqb_refl, H. lia.
  - apply before_filter in H. destruct H as (H & Ha & Hb).
    apply negb_true_iff in Ha, Hb. rewrite Ha, Hb.
    specialize (IH H). lia.
Qed.

Lemma Counter_snoc (k : pystr) (l : list pystr) :
  Counter PyStr.eqb (l ++ [k])
  = counter_add PyStr.eqb k (Counter PyStr.eqb l).
Proof. unfold Counter. now rewrite fold_left_app. Qed.

Lemma counter_add_present (k : pystr) (f : pystr -> nat) (D : list pystr) :
  NoDup D -> In k D ->
  counter_add PyStr.eqb k (map (fun x => (x, f x)) D)
  = map (fun x => (x, if PyStr.eqb k x then S (f x) else f x)) D.
Proof.
  induction D as [|x D IH]; simpl; [tauto|].
  intros HD Hk. inversion HD as [|? ? Hx HD']; subst.
  destruct (PyStr.eqb k x) eqn:E.
  - apply eqb_eq in E; subst. f_equal.
    apply map_ext_in. intros y Hy.
    destruct (PyStr.eqb x y) eqn:E'; [|reflexivity].
    apply eqb_eq in E'; subst; tauto.
  - f_equal. apply IH; [assumption|].
    destruct Hk as [->|Hk]; [|assumption].
    rewrite eqb_refl in E; discriminate.
Qed.

Lemma counter_add_absent (k : pystr) (f : pystr -> nat) (D : list pystr) :
  ~ In k D ->
  counter_add PyStr.eqb k (map (fun x => (x, f x)) D)
  = map (fun x => (x, f x)) D ++ [(k, 1)].
Proof.
  induction D as [|x D IH]; simpl; [reflexivity|].
  intros H. destruct (PyStr.eqb k x) eqn:E.
  - apply eqb_eq in E; subst; tauto.
  - f_equal. apply IH. tauto.
Qed.

(** The dict a [Counter] builds: the distinct tokens in order of first
    appearance, each with its number of occurrences. *)
Lemma Counter_items (l : list pystr) :
  Counter PyStr.eqb l = map (fun k => (k, frequency k l)) (distinct l).
Proof.
  induction l as [|k l IH] using rev_ind; [reflexivity|].
  rewrite Counter_snoc, IH, distinct_snoc.
  destruct (isin k l) eqn:E.
  - rewrite counter_add_present.
    + apply map_ext. intros x. rewrite frequency_snoc, (eqb_sym x k).
      destruct (PyStr.eqb k x); f_equal; lia.
    + apply NoDup_distinct.
    + apply In_distinct, isin_In, E.
  - assert (Hk : ~ In k l).
    { intros H. apply isin_In in H. congruence. }
    rewrite counter_add_absent by (rewrite In_distinct; exact Hk).
    rewrite map_app. simpl. f_equal.
    + apply map_ext_in. intros x Hx. rewrite frequency_snoc.
      destruct (PyStr.eqb x k) eqn:E'; [|f_equal; lia].
      apply eqb_eq in E'; subst.
      apply (proj1 (In_distinct _ _)) in Hx. tauto.
    + rewrite frequency_snoc, eqb_refl, frequency_notin by exact Hk.
      reflexivity.
Qed.

(* ================================================================== *)
(** * Stable sorting by decreasing count *)
(* ================================================================== *)

Section SortedDesc.

Variable K : Type.

Lemma insert_desc_perm (x : K * nat) (l : list (K * nat)) :
  Permutation (insert_desc x l) (x :: l).
Proof.
  induction l as [|y l IH]; simpl; [reflexivity|].
  destruct (snd x <? snd y); [|reflexivity].
  rewrite IH. apply perm_swap.
Qed.

Lemma sorted_desc_perm (l : list (K * nat)) :
  Permutation (sorted_desc l) l.
Proof.
  induction l as [|x l IH]; simpl; [reflexivity|].
  rewrite insert_desc_perm. now constructor.
Qed.

Lemma insert_desc_sorted (x : K * nat) (l : list (K * nat)) :
  StronglySorted (@count_ge K) l ->
  StronglySorted (@count_ge K) (insert_desc x l).
Proof.
  induction 1 as [|y l Hl IH Hy]; simpl.
  - repeat constructor.
  - destruct (snd x <? snd y) eqn:E.
    + apply Nat.ltb_lt in E. constructor; [assumption|].
      apply Forall_forall. intros z Hz.
      apply (Permutation_in _ (insert_desc_perm x l)) in Hz.
      destruct Hz as [<-|Hz].
      * unfold count_ge; lia.
      * rewrite Forall_forall in Hy. auto.
    + apply Nat.ltb_ge in E. constructor.
      * now constructor.
      * constructor; [exact E|].
        eapply Forall_impl; [|exact Hy].
        unfold count_ge. intros; lia.
Qed.

Lemma sorted_desc_sorted (l : list (K * nat)) :
  StronglySorted (@count_ge K) (sorted_desc l).
Proof.
  induction l; simpl; [constructor | now apply insert_desc_sorted].
Qed.

Lemma before_insert_desc (x y z : K * nat) (l : list (K * nat)) :
  StronglySorted (@count_ge K) l ->
  before x y (insert_desc z l) ->
  (x = z /\ In y l /\ snd y <= snd z)
  \/ (y = z /\ In x l /\ snd z < snd x)
  \/ before x y l.
Proof.
  induction 1 as [|w l Hl IH Hw]; simpl.
  - intros [[_ []]|[]].
  - rewrite Forall_forall in Hw.
    destruct (snd z <? snd w) eqn:E; simpl.
    + apply Nat.ltb_lt in E. intros [[-> Hy]|H].
      * apply (Permutation_in _ (insert_desc_perm z l)) in Hy.
        destruct Hy as [<-|Hy].
        -- right. left. split; [reflexivity|]. split; [now left | exact E].
        -- right. right. left. split; [reflexivity | exact Hy].
      * destruct (IH H) as [(-> & Hy & Hle)|[(-> & Hx & Hlt)|Hb]].
        -- left. split; [reflexivity|]. split; [now right | exact Hle].
        -- right. left. split; [reflexivity|]. split; [now right | exact Hlt].
        -- right. right. right. exact Hb.
    + apply Nat.ltb_ge in E. intros [[-> [<-|Hy]]|H].
      * left. split; [reflexivity|]. split; [now left | exact E].
      * left. split; [reflexivity|]. split; [now right|].
        specialize (Hw _ Hy). unfold count_ge in Hw. lia.
      * right. right. exact H.
Qed.

(** Stability: of two items, the one with the larger count comes first, and
    of two with equal counts the one that came first in the input. *)
Lemma sorted_desc_stable (x y : K * nat) (l : list (K * nat)) :
  before x y (sorted_desc l) ->
  snd y < snd x \/ (snd x = snd y /\ before x y l).
Proof.
  induction l as [|z l IH]; simpl; [tauto|].
  intros H. apply before_insert_desc in H; [|apply sorted_desc_sorted].
  destruct H as [(-> & Hy & Hle)|[(-> & Hx & Hlt)|Hb]].
  - apply (Permutation_in _ (sorted_desc_perm l)) in Hy.
    destruct (Nat.eq_dec (snd y) (snd z)) as [E|E].
    + right. auto.
    + left. lia.
  - left. exact Hlt.
  - destruct (IH Hb) as [?|[? ?]]; auto.
Qed.

End SortedDesc.

(* ================================================================== *)
(** * The hashtag ranking *)
(* ================================================================== *)

Lemma In_Counter (t : pystr) (n : nat) (l : list pystr) :
  In (t, n) (Counter PyStr.eqb l) <-> In t l /\ n = frequency t l.
Proof.
  rewrite Counter_items, in_map_iff. split.
  - intros (k & [= -> <-] & Hk).
    split; [now apply In_distinct | reflexivity].
  - intros (Ht & ->). exists t. split; [reflexivity | now apply In_distinct].
Qed.

Lemma In_sorted_Counter (t : pystr) (n : nat) (l : list pystr) :
  In (t, n) (sorted_desc (Counter PyStr.eqb l))
  <-> In t l /\ n = frequency t l.
Proof.
  rewrite <- In_Counter. split; apply Permutation_in.
  - apply sorted_desc_perm.
  - symmetry; apply sorted_desc_perm.
Qed.

Lemma before_sorted_outranks (a b : pystr) (na nb : nat) (l : list pystr) :
  before (a, na) (b, nb) (sorted_desc (Counter PyStr.eqb l)) ->
  outranks l a b.
Proof.
  intros H.
  destruct (before_In _ _ _ H) as (Ha & Hb).
  apply In_sorted_Counter in Ha, Hb.
  destruct Ha as (_ & ->), Hb as (_ & ->).
  apply sorted_desc_stable in H. simpl in H.
  destruct H as [H|(E & H)]; [left; exact H | right].
  split; [exact E|].
  rewrite Counter_items in H. apply before_map in H.
  destruct H as (x & y & [= -> _] & [= -> _] & H).
  now apply first_seen_before.
Qed.

Lemma keys_sorted_Counter (l : list pystr) :
  Permutation (map fst (sorted_desc (Counter PyStr.eqb l))) (distinct l).
Proof.
  rewrite (Permutation_map fst (sorted_desc_perm (Counter PyStr.eqb l))).
  rewrite Counter_items, map_map. simpl. now rewrite map_id.
Qed.

(** C7. The ranking is a function of the Hashtags texts of the filtered
    records alone.  Its tokens are the whitespace-separated pieces of each
    text, record after record; every ranked token is listed once with its
    number of occurrences; the ranking holds ten tokens, or all of them
    when there are fewer; a token listed earlier is more frequent than one
    listed later, or as frequent and first seen earlier; and every listed
    token ranks in that sense above every token left out. *)
Theorem top_hashtags_ranking (view : DataFrame) :
  let tokens := tokens_of view in
  let top := hashtag_counts view in
  hashtag_list view = tokens
  /\ (forall other, map Hashtags other = map Hashtags view ->
                    hashtag_counts other = top)
  /\ List.length top = Nat.min 10 (List.length (distinct tokens))
  /\ NoDup (map fst top)
  /\ (forall t n, In (t, n) top -> In t tokens /\ n = frequency t tokens)
  /\ (forall i j a b na nb,
        i < j -> nth_error top i = Some (a, na) ->
        nth_error top j = Some (b, nb) -> outranks tokens a b)
  /\ (forall a b,
        In a (map fst top) -> In b tokens -> ~ In b (map fst top) ->
        outranks tokens a b).
Proof.
  intros tokens top.
  assert (Etop : top = firstn 10 (sorted_desc (Counter PyStr.eqb tokens))).
  { unfold top, hashtag_counts, most_common.
    now rewrite hashtag_list_tokens. }
  set (S := sorted_desc (Counter PyStr.eqb tokens)) in *.
  assert (ES : S = top ++ skipn 10 S)
    by (rewrite Etop; symmetry; apply firstn_skipn).
  assert (Hin : forall p, In p top -> In p S).
  { intros p Hp. rewrite ES. apply in_or_app; auto. }
  split; [apply hashtag_list_tokens|].
  split.
  { intros other E. unfold top, hashtag_counts, hashtag_list. now rewrite E. }
  split.
  { rewrite Etop, length_firstn. f_equal. unfold S.
    rewrite (Permutation_length (sorted_desc_perm _)), Counter_items.
    apply length_map. }
  split.
  { assert (HS : NoDup (map fst S)).
    { eapply Permutation_NoDup;
        [symmetry; apply keys_sorted_Counter | apply NoDup_distinct]. }
    rewrite ES, map_app in HS. eapply NoDup_app_remove_r; exact HS. }
  split.
  { intros t n Ht. apply Hin in Ht. now apply In_sorted_Counter in Ht. }
  split.
  { intros i j a b na nb Hij Ha Hb.
    apply (before_sorted_outranks a b na nb).
    fold S. rewrite ES. apply before_app_l.
    eapply nth_error_before; eauto. }
  intros a b Ha Hb Hnb.
  apply in_map_iff in Ha. destruct Ha as ([a' na] & <- & Ha). simpl.
  apply (before_sorted_outranks a' b na (frequency b tokens)).
  fold S. rewrite ES. apply before_app; [exact Ha|].
  assert (HbS : In (b, frequency b tokens) S)
    by (apply In_sorted_Counter; auto).
  rewrite ES in HbS. apply in_app_or in HbS.
  destruct HbS as [HbS|HbS]; [|exact HbS].
  exfalso. apply Hnb. apply in_map_iff.
  exists (b, frequency b tokens). auto.
Qed.

Lemma top_hashtags_ranking_witness :
  hashtag_counts tagged_view
  = [(py "#b", 2); (py "#a", 2); (py "#c", 1); (py "#d", 1)]
  /\ hashtag_counts retagged_view = hashtag_counts tagged_view
  /\ frequency (py "#b") (tokens_of tagged_view) = 2
  /\ outranks (tokens_of tagged_view) (py "#b") (py "#a")
  /\ outranks (tokens_of tagged_view) (py "#a") (py "#c")
  /\ outranks (tokens_of tagged_view) (py "#c") (py "#d")
  /\ List.length (hashtag_counts crowded_view) = 10
  /\ ~ In (py "#k") (map fst (hashtag_counts crowded_view))
  /\ outranks (tokens_of crowded_view) (py "#j") (py "#k").
Proof.
  destruct (top_hashtags_ranking tagged_view)
    as (_ & Hfun & _ & _ & Hfreq & Hrank & _).
  destruct (top_hashtags_ranking crowded_view)
    as (_ & _ & _ & _ & _ & _ & Hout).
  assert (Hk : ~ In (py "#k") (map fst (hashtag_counts crowded_view))).
  { vm_compute. intuition discriminate. }
  split; [reflexivity|].
  split; [apply Hfun; reflexivity|].
  split.
  { symmetry. apply (Hfreq (py "#b") 2). vm_compute. tauto. }
  split.
  { apply (Hrank 0 1 (py "#b") (py "#a") 2 2);
      [lia | reflexivity | reflexivity]. }
  split.
  { apply (Hrank 1 2 (py "#a") (py "#c") 2 1);
      [lia | reflexivity | reflexivity]. }
  split.
  { apply (Hrank 2 3 (py "#c") (py "#d") 1 1);
      [lia | reflexivity | reflexivity]. }
  split; [reflexivity|].
  split; [exact Hk|].
  apply Hout; [vm_compute; tauto | vm_compute; tauto | exact Hk].
Defined.

(* ================================================================== *)
(** * Missing hashtags *)
(* ================================================================== *)

Lemma dropna_all_present (view : DataFrame) :
  Forall (fun p => Hashtags p <> None) view ->
  map Some (dropna (map Hashtags view)) = map Hashtags view.
Proof.
  induction 1 as [|p view Hp _ IH]; simpl; [reflexivity|].
  destruct (Hashtags p); [simpl; now rewrite IH | congruence].
Qed.

Lemma convert_Hashtags to_numeric (r : RawRow) (p : Post) :
  convert to_numeric r = Some p ->
  Hashtags p = Some (astype_str (raw_Hashtags r)).
Proof.
  unfold convert. destruct (astype_int _); [|discriminate].
  now intros [= <-].
Qed.

Lemma loaded_hashtags_present to_numeric rows df shown sp ss sc :
  load_data to_numeric (ReadOk rows) = (Some df, shown) ->
  Forall (fun p => Hashtags p <> None) (filtered_df df sp ss sc).
Proof.
  intros Hload. apply load_data_rows in Hload. destruct Hload as (Hrows & _).
  assert (Hdf : Forall (fun p => Hashtags p <> None) df).
  { induction Hrows as [|r p rows df Hp _ IH]; constructor; [|exact IH].
    rewrite (convert_Hashtags _ _ Hp). discriminate. }
  rewrite Forall_forall in *. intros p Hp. apply Hdf.
  exact (Subseq_In (filtered_df_Subseq _ sp ss sc) _ Hp).
Qed.

(** C10. A row whose Hashtags field is missing is loaded with the text
    "nan"; on any filtered view of the loaded frame [dropna] keeps every
    cell of the Hashtags column; "nan" is then a token of every view that
    holds such a row, counted like any other, and it is ranked for the
    frame made of one such row. *)
Theorem missing_hashtags_counted_as_nan
    (to_numeric : pystr -> option float) (rows : list RawRow)
    (df : DataFrame) (sp ss sc : list pystr) :
  load_data to_numeric (ReadOk rows) = (Some df, []) ->
  let view := filtered_df df sp ss sc in
  (forall r p, convert to_numeric r = Some p -> raw_Hashtags r = None ->
               Hashtags p = Some (py "nan"))
  /\ map Some (dropna (map Hashtags view)) = map Hashtags view
  /\ List.length (dropna (map Hashtags view)) = List.length view
  /\ (forall r p, convert to_numeric r = Some p -> raw_Hashtags r = None ->
                  In p view ->
                  In (py "nan") (hashtag_list view)
                  /\ 0 < frequency (py "nan") (tokens_of view))
  /\ (exists df1,
        load_data decimal_literal (ReadOk [raw_no_hashtags]) = (Some df1, [])
        /\ hashtag_counts df1 = [(py "nan", 1)]).
Proof.
  intros Hload view.
  assert (Hcells : map Some (dropna (map Hashtags view)) = map Hashtags view).
  { eapply dropna_all_present, loaded_hashtags_present. exact Hload. }
  assert (Hnan : forall r p, convert to_numeric r = Some p ->
                   raw_Hashtags r = None -> Hashtags p = Some (py "nan")).
  { intros r p Hp Hr. rewrite (convert_Hashtags _ _ Hp), Hr. reflexivity. }
  split; [exact Hnan|]. split; [exact Hcells|]. split; [|split].
  - apply (f_equal (@List.length _)) in Hcells.
    now rewrite !length_map in Hcells.
  - intros r p Hp Hr Hin.
    assert (Htok : In (py "nan") (tokens_of view)).
    { unfold tokens_of. apply in_flat_map. exists (py "nan").
      split; [|now left].
      apply In_dropna. apply in_map_iff. exists p.
      split; [now apply (Hnan r) | exact Hin]. }
    split; [now rewrite hashtag_list_tokens | now apply frequency_in].
  - eexists. split; reflexivity.
Qed.

Lemma missing_hashtags_counted_as_nan_witness :
  exists df p,
    load_data decimal_literal (ReadOk [raw_no_hashtags]) = (Some df, [])
    /\ convert decimal_literal raw_no_hashtags = Some p
    /\ raw_Hashtags raw_no_hashtags = None
    /\ Hashtags p = Some (py "nan")
    /\ In p (filtered_df df [] [] [])
    /\ In (py "nan") (hashtag_list (filtered_df df [] [] [])).
Proof.
  eexists. eexists.
  split; [reflexivity|]. split; [reflexivity|]. split; [reflexivity|].
  destruct (@missing_hashtags_counted_as_nan decimal_literal
              [raw_no_hashtags] _ [] [] [] eq_refl) as (H1 & _ & _ & H2 & _).
  split; [exact (H1 raw_no_hashtags _ eq_refl eq_refl)|].
  split; [now left|].
  exact (proj1 (H2 raw_no_hashtags _ eq_refl eq_refl (or_introl eq_refl))).
Defined.

(* ================================================================== *)
(** * Correlation *)
(* ================================================================== *)

Lemma sumQ_products_sym (mx my : Q) (xs ys : list Q) :
  (sumQ (map (fun p => (fst p - mx) * (snd p - my)) (combine xs ys))
   == sumQ (map (fun p => (fst p - my) * (snd p - mx)) (combine ys xs)))%Q.
Proof.
  revert ys; induction xs as [|x xs IH]; intros [|y ys]; simpl;
    try reflexivity.
  rewrite IH. ring.
Qed.

Lemma co_moment_sym (xs ys : list Q) :
  (co_moment xs ys == co_moment ys xs)%Q.
Proof. unfold co_moment. apply sumQ_products_sym. Qed.

Lemma sumQ_squares_nonneg (m : Q) (xs : list Q) :
  (0 <= sumQ (map (fun p => (fst p - m) * (snd p - m)) (combine xs xs)))%Q.
Proof.
  induction xs as [|x xs IH]; simpl; [apply Qle_refl|].
  apply (Qle_trans _ ((0 # 1) + (0 # 1))); [apply Qle_refl|].
  apply Qplus_le_compat; [|exact IH].
  generalize (x - m)%Q. intros q.
  destruct (Qlt_le_dec q 0) as [H|H].
  - setoid_replace (q * q)%Q with ((- q) * (- q))%Q by ring.
    apply Qmult_le_0_compat; apply (Qopp_le_compat q 0), Qlt_le_weak, H.
  - now apply Qmult_le_0_compat.
Qed.

Lemma co_moment_self_nonneg (xs : list Q) : (0 <= co_moment xs xs)%Q.
Proof. unfold co_moment. apply sumQ_squares_nonneg. Qed.

Lemma pearson_finite_sym (xs ys : list Q) :
  pearson_finite xs ys = pearson_finite ys xs.
Proof.
  unfold pearson_finite.
  assert (E : (co_moment xs xs * co_moment ys ys
               == co_moment ys ys * co_moment xs xs)%Q) by ring.
  destruct (Qeq_bool (co_moment xs xs * co_moment ys ys) (0 # 1)) eqn:B1;
    destruct (Qeq_bool (co_moment ys ys * co_moment xs xs) (0 # 1)) eqn:B2.
  - reflexivity.
  - apply Qeq_bool_iff in B1. rewrite E in B1.
    apply Qeq_bool_iff in B1. congruence.
  - apply Qeq_bool_iff in B2. rewrite <- E in B2.
    apply Qeq_bool_iff in B2. congruence.
  - rewrite (Qeq_eqR _ _ E), (Qeq_eqR _ _ (co_moment_sym xs ys)).
    reflexivity.
Qed.

Lemma finite_pairs_swap (xs ys : list float) :
  map fst (finite_pairs ys xs) = map snd (finite_pairs xs ys)
  /\ map snd (finite_pairs ys xs) = map fst (finite_pairs xs ys).
Proof.
  revert ys; induction xs as [|[x|sx] xs IH]; intros [|[y|sy] ys]; simpl;
    try (split; reflexivity);
    destruct (IH ys) as [E1 E2]; split; simpl; congruence.
Qed.

Lemma finite_pairs_self (xs : list float) :
  map fst (finite_pairs xs xs) = finite_part xs
  /\ map snd (finite_pairs xs xs) = finite_part xs.
Proof.
  induction xs as [|[x|sx] xs [IH1 IH2]]; simpl;
    split; try reflexivity; congruence.
Qed.

Lemma finite_pairs_length (xs ys : list float) :
  List.length (map fst (finite_pairs xs ys))
  = List.length (map snd (finite_pairs xs ys)).
Proof. now rewrite !length_map. Qed.

Lemma pearson_sym (xs ys : list float) : pearson xs ys = pearson ys xs.
Proof.
  unfold pearson. destruct (finite_pairs_swap xs ys) as [E1 E2].
  rewrite E1, E2. apply pearson_finite_sym.
Qed.

Lemma pearson_self (xs : list float) :
  pearson xs xs = pearson_finite (finite_part xs) (finite_part xs).
Proof.
  unfold pearson. destruct (finite_pairs_self xs) as [E1 E2].
  now rewrite E1, E2.
Qed.

Lemma finite_part_length (l : list float) :
  List.length (finite_part l) <= List.length l.
Proof. induction l as [|[q|s] l IH]; simpl; lia. Qed.

Lemma square_nonneg (q : Q) : (0 <= q * q)%Q.
Proof.
  destruct (Qlt_le_dec q 0) as [H|H].
  - setoid_replace (q * q)%Q with ((- q) * (- q))%Q by ring.
    apply Qmult_le_0_compat; apply (Qopp_le_compat q 0), Qlt_le_weak, H.
  - now apply Qmult_le_0_compat.
Qed.

Lemma sumQ_squares_zero (m : Q) (xs : list Q) :
  (sumQ (map (fun p => (fst p - m) * (snd p - m)) (combine xs xs)) == 0)%Q ->
  forall x, In x xs -> (x == m)%Q.
Proof.
  induction xs as [|y xs IH]; simpl; [tauto|].
  intros H x Hx.
  pose proof (square_nonneg (y - m)) as H1.
  pose proof (sumQ_squares_nonneg m xs) as H2.
  destruct Hx as [<-|Hx].
  - assert (E : ((y - m) * (y - m) == 0)%Q) by Lqa.lra.
    apply Qmult_integral in E. destruct E; Lqa.lra.
  - apply IH; [Lqa.lra | exact Hx].
Qed.

Lemma sumQ_squares_of_constant (m : Q) (xs : list Q) :
  (forall x, In x xs -> (x == m)%Q) ->
  (sumQ (map (fun p => (fst p - m) * (snd p - m)) (combine xs xs)) == 0)%Q.
Proof.
  induction xs as [|y xs IH]; simpl; intros H; [reflexivity|].
  assert (E : (y - m == 0)%Q) by (rewrite (H y (or_introl eq_refl)); ring).
  assert (ES := IH (fun x Hx => H x (or_intror Hx))).
  rewrite E, ES. ring.
Qed.

Lemma sumQ_of_constant (c : Q) (xs : list Q) :
  (forall x, In x xs -> (x == c)%Q) -> (sumQ xs == count_of xs * c)%Q.
Proof.
  unfold count_of.
  induction xs as [|y xs IH]; intros H.
  - simpl. ring.
  - assert (ES := IH (fun x Hx => H x (or_intror Hx))).
    change (sumQ (y :: xs)) with (y + sumQ xs)%Q.
    change (List.length (y :: xs)) with (S (List.length xs)).
    rewrite Nat2Z.inj_succ. unfold Z.succ. rewrite inject_Z_plus.
    rewrite ES, (H y (or_introl eq_refl)). ring.
Qed.

Lemma count_of_cons_nonzero (y : Q) (xs : list Q) :
  ~ (count_of (y :: xs) == 0)%Q.
Proof.
  unfold count_of, Qeq. simpl Qnum. simpl Qden.
  change (List.length (y :: xs)) with (S (List.length xs)). lia.
Qed.

Lemma short_not_varies (qs : list Q) : List.length qs <= 1 -> ~ varies qs.
Proof.
  intros Hlen (x & y & Hx & Hy & Hne). apply Hne.
  destruct qs as [|a [|b qs]]; simpl in *; try tauto; try lia.
  destruct Hx as [<-|[]], Hy as [<-|[]]. reflexivity.
Qed.

(** The sum of squared deviations of a column is zero exactly when no
    two of its values differ. *)
Lemma co_moment_zero_iff (qs : list Q) :
  (co_moment qs qs == 0)%Q <-> ~ varies qs.
Proof.
  unfold co_moment. split.
  - intros H (x & y & Hx & Hy & Hne). apply Hne.
    rewrite (sumQ_squares_zero _ _ H x Hx), (sumQ_squares_zero _ _ H y Hy).
    reflexivity.
  - intros Hnv. destruct qs as [|c rest]; [reflexivity|].
    assert (Hall : forall x, In x (c :: rest) -> (x == c)%Q).
    { intros x Hx. destruct (Qeq_dec x c) as [E|E]; [exact E|].
      exfalso. apply Hnv. exists x, c. split; [exact Hx|].
      split; [now left | exact E]. }
    apply sumQ_squares_of_constant. intros x Hx.
    rewrite (Hall x Hx), (sumQ_of_constant _ Hall).
    pose proof (@count_of_cons_nonzero c rest) as Hn.
    field. exact Hn.
Qed.

Lemma pearson_finite_self (xs : list Q) :
  pearson_finite xs xs
  = if Qeq_bool (co_moment xs xs) (0 # 1) then None else Some 1%R.
Proof.
  unfold pearson_finite. set (c := co_moment xs xs).
  destruct (Qeq_bool c (0 # 1)) eqn:B.
  - apply Qeq_bool_iff in B.
    assert (E : (c * c == 0 # 1)%Q) by (rewrite B; ring).
    apply Qeq_bool_iff in E. now rewrite E.
  - assert (Hc : ~ (c == 0 # 1)%Q).
    { intros H. apply Qeq_bool_iff in H. congruence. }
    destruct (Qeq_bool (c * c) (0 # 1)) eqn:B2.
    + apply Qeq_bool_iff in B2. apply Qmult_integral in B2. tauto.
    + f_equal. rewrite Q2R_mult.
      assert (H0 : (0 <= Q2R c)%R).
      { replace 0%R with (Q2R (0 # 1)) by (unfold Q2R; simpl; lra).
        apply Qle_Rle, co_moment_self_nonneg. }
      rewrite sqrt_square by exact H0.
      assert (Hn : Q2R c <> 0%R).
      { intros H. apply Hc. apply eqR_Qeq.
        rewrite H. unfold Q2R; simpl; lra. }
      now field.
Qed.

Lemma diagonal_entry (view : DataFrame) (a : numeric_col) :
  corr_entry view a a
  = if Qeq_bool (co_moment (finite_part (column a view))
                           (finite_part (column a view))) (0 # 1)
    then None else Some 1%R.
Proof. unfold corr_entry. now rewrite pearson_self, pearson_finite_self. Qed.

Lemma diagonal_entry_nan (view : DataFrame) (a : numeric_col) :
  ~ varies (finite_part (column a view)) -> corr_entry view a a = None.
Proof.
  intros H. rewrite diagonal_entry.
  apply (proj2 (co_moment_zero_iff _)) in H.
  apply Qeq_bool_iff in H. now rewrite H.
Qed.

Lemma diagonal_entry_one (view : DataFrame) (a : numeric_col) :
  varies (finite_part (column a view)) -> corr_entry view a a = Some 1%R.
Proof.
  intros H. rewrite diagonal_entry.
  destruct (Qeq_bool _ _) eqn:B; [|reflexivity].
  apply Qeq_bool_iff in B. apply (proj1 (co_moment_zero_iff _)) in B. tauto.
Qed.

(** C9, as stated, fails: on a view of one record the diagonal of the
    correlation matrix is NaN, not 1. *)
Lemma single_record_diagonal_is_nan :
  [sample_post "Positive" "Twitter" "UK"] <> []
  /\ corr_entry [sample_post "Positive" "Twitter" "UK"] col_Likes col_Likes
     = None
  /\ corr_entry [sample_post "Positive" "Twitter" "UK"] col_Likes col_Likes
     <> Some 1%R
  /\ nth 0 (nth 0 (corr_matrix [sample_post "Positive" "Twitter" "UK"]) [])
         (Some 1%R) = None.
Proof.
  assert (E : corr_entry [sample_post "Positive" "Twitter" "UK"]
                         col_Likes col_Likes = None).
  { apply diagonal_entry_nan, short_not_varies.
    etransitivity; [apply finite_part_length|].
    unfold column. rewrite length_map. apply le_n. }
  split; [discriminate|]. split; [exact E|].
  split; [rewrite E; discriminate | exact E].
Qed.

(** C9, amended. The correlation matrix of a view has three rows of three
    entries, the entry of row i and column j being the coefficient of the
    i-th and j-th of Likes, Retweets and Hour, taken over the records in
    which both are finite; it is symmetric.  A diagonal entry is NaN when
    no two finite values of its column differ, as on a view of at most
    one record, and is 1 when two of them differ and they are whole
    numbers of magnitude at most 2^20. *)
Theorem corr_matrix_symmetric_unit_diagonal (view : DataFrame) :
  List.length (corr_matrix view) = 3
  /\ Forall (fun row => List.length row = 3) (corr_matrix view)
  /\ (forall i j a b,
        nth_error numeric_cols i = Some a ->
        nth_error numeric_cols j = Some b ->
        nth j (nth i (corr_matrix view) []) None = corr_entry view a b)
  /\ (forall a b, corr_entry view a b = corr_entry view b a)
  /\ (forall i j,
        nth j (nth i (corr_matrix view) []) None
        = nth i (nth j (corr_matrix view) []) None)
  /\ (forall a,
        ~ varies (finite_part (column a view)) ->
        corr_entry view a a = None)
  /\ (forall a, List.length view <= 1 -> corr_entry view a a = None)
  /\ (forall a,
        Forall whole_count (finite_part (column a view)) ->
        varies (finite_part (column a view)) ->
        corr_entry view a a = Some 1%R).
Proof.
  assert (Hsym : forall a b, corr_entry view a b = corr_entry view b a)
    by (intros; apply pearson_sym).
  split; [reflexivity|].
  split; [unfold corr_matrix; repeat constructor|].
  split; [|split; [exact Hsym|split; [|split; [|split]]]].
  - intros i j a b Ha Hb.
    destruct i as [|[|[|i]]]; cbn in Ha;
      try (destruct i; discriminate Ha);
      destruct j as [|[|[|j]]]; cbn in Hb;
      try (destruct j; discriminate Hb);
      injection Ha as <-; injection Hb as <-; reflexivity.
  - intros i j. unfold corr_matrix, numeric_cols. cbn [map].
    revert Hsym. generalize (corr_entry view). intros f Hsym.
    destruct i as [|[|[|i]]]; destruct j as [|[|[|j]]]; cbn [nth];
      try reflexivity; try apply Hsym;
      try (destruct i; reflexivity); try (destruct j; reflexivity).
    destruct i; destruct j; reflexivity.
  - intros a. apply diagonal_entry_nan.
  - intros a Hlen. apply diagonal_entry_nan, short_not_varies.
    etransitivity; [apply finite_part_length|].
    unfold column. now rewrite length_map.
  - intros a _. apply diagonal_entry_one.
Qed.

Lemma corr_matrix_symmetric_unit_diagonal_witness :
  nth_error numeric_cols 0 = Some col_Likes
  /\ nth_error numeric_cols 2 = Some col_Hour
  /\ nth 2 (nth 0 (corr_matrix varied_view) []) None
     = corr_entry varied_view col_Likes col_Hour
  /\ Forall whole_count (finite_part (column col_Likes varied_view))
  /\ varies (finite_part (column col_Likes varied_view))
  /\ corr_entry varied_view col_Likes col_Likes = Some 1%R
  /\ ~ varies (finite_part (column col_Hour varied_view))
  /\ corr_entry varied_view col_Hour col_Hour = None
  /\ List.length [sample_post "Positive" "Twitter" "UK"] <= 1
  /\ corr_entry [sample_post "Positive" "Twitter" "UK"] col_Hour col_Hour
     = None.
Proof.
  destruct (corr_matrix_symmetric_unit_diagonal varied_view)
    as (_ & _ & Hentry & _ & _ & Hnan & _ & Hone).
  destruct (corr_matrix_symmetric_unit_diagonal
              [sample_post "Positive" "Twitter" "UK"])
    as (_ & _ & _ & _ & _ & _ & Hshort & _).
  assert (HW : Forall whole_count (finite_part (column col_Likes varied_view))).
  { repeat constructor.
    - exists 10%Z. split; [reflexivity | vm_compute; discriminate].
    - exists 30%Z. split; [reflexivity | vm_compute; discriminate]. }
  assert (HV : varies (finite_part (column col_Likes varied_view))).
  { exists (10 # 1)%Q, (30 # 1)%Q. split; [now left|].
    split; [right; now left | intros H; vm_compute in H; discriminate H]. }
  assert (HC : ~ varies (finite_part (column col_Hour varied_view))).
  { intros (x & y & Hx & Hy & Hne). simpl in Hx, Hy.
    destruct Hx as [<-|[<-|[]]], Hy as [<-|[<-|[]]]; apply Hne; reflexivity. }
  split; [reflexivity|]. split; [reflexivity|].
  split; [exact (Hentry 0 2 col_Likes col_Hour eq_refl eq_refl)|].
  split; [exact HW|]. split; [exact HV|].
  split; [exact (Hone col_Likes HW HV)|].
  split; [exact HC|]. split; [exact (Hnan col_Hour HC)|].
  split; [apply le_n|]. exact (Hshort col_Hour (le_n 1)).
Defined.

(* ================================================================== *)
(** * Counters over any key *)
(* ================================================================== *)

Section CounterFacts.

Variable K : Type.
Variable K_eqb : K -> K -> bool.
Hypothesis K_eqb_eq : forall x y, K_eqb x y = true <-> x = y.

Lemma K_eqb_refl (x : K) : K_eqb x x = true.
Proof. now apply K_eqb_eq. Qed.

Lemma K_eqb_false (x y : K) : K_eqb x y = false <-> x <> y.
Proof.
  rewrite <- K_eqb_eq. destruct (K_eqb x y); split; congruence.
Qed.

Lemma counter_snoc (k : K) (l : list K) :
  Counter K_eqb (l ++ [k]) = counter_add K_eqb k (Counter K_eqb l).
Proof. unfold Counter. now rewrite fold_left_app. Qed.

Lemma occurrences_snoc (x k : K) (l : list K) :
  occurrences K_eqb x (l ++ [k])
  = occurrences K_eqb x l + (if K_eqb x k then 1 else 0).
Proof.
  unfold occurrences. rewrite filter_app, length_app. simpl.
  destruct (K_eqb x k); reflexivity.
Qed.

Lemma occurrences_pos (x : K) (l : list K) :
  0 < occurrences K_eqb x l <-> In x l.
Proof.
  unfold occurrences. induction l as [|y l IH]; simpl; [split; [lia|tauto]|].
  destruct (K_eqb x y) eqn:E; simpl.
  - apply K_eqb_eq in E. split; [auto | lia].
  - apply K_eqb_false in E. rewrite IH. split; [auto|].
    intros [H|H]; [congruence | exact H].
Qed.

Lemma lookup_counter_add (k x : K) (c : list (K * nat)) :
  lookup K_eqb x (counter_add K_eqb k c)
  = if K_eqb x k
    then Some (S (match lookup K_eqb k c with Some n => n | None => 0 end))
    else lookup K_eqb x c.
Proof.
  induction c as [|[k' n] c IH]; simpl.
  - destruct (K_eqb x k); reflexivity.
  - destruct (K_eqb k k') eqn:Ek; simpl.
    + apply K_eqb_eq in Ek; subst k'.
      destruct (K_eqb x k); reflexivity.
    + rewrite IH. destruct (K_eqb x k) eqn:Ex; [|reflexivity].
      apply K_eqb_eq in Ex; subst x. now rewrite Ek.
Qed.

Lemma keys_counter_add (k x : K) (c : list (K * nat)) :
  In x (map fst (counter_add K_eqb k c)) <-> x = k \/ In x (map fst c).
Proof.
  induction c as [|[k' n] c IH]; simpl; [intuition|].
  destruct (K_eqb k k') eqn:Ek; simpl.
  - apply K_eqb_eq in Ek; subst. intuition.
  - rewrite IH. intuition.
Qed.

Lemma NoDup_counter_add (k : K) (c : list (K * nat)) :
  NoDup (map fst c) -> NoDup (map fst (counter_add K_eqb k c)).
Proof.
  induction c as [|[k' n] c IH]; simpl; intros H.
  - repeat constructor. tauto.
  - inversion H as [|? ? Hk' Hc]; subst.
    destruct (K_eqb k k') eqn:Ek; simpl.
    + now constructor.
    + constructor; [|auto].
      rewrite keys_counter_add. intros [->|H']; [|tauto].
      rewrite K_eqb_refl in Ek; discriminate.
Qed.

Lemma NoDup_Counter (l : list K) : NoDup (map fst (Counter K_eqb l)).
Proof.
  induction l as [|k l IH] using rev_ind; [constructor|].
  rewrite counter_snoc. now apply NoDup_counter_add.
Qed.

Lemma lookup_Counter (x : K) (l : list K) :
  lookup K_eqb x (Counter K_eqb l)
  = match occurrences K_eqb x l with
    | 0 => None
    | n => Some n
    end.
Proof.
  induction l as [|k l IH] using rev_ind; [reflexivity|].
  rewrite counter_snoc, lookup_counter_add, occurrences_snoc.
  destruct (K_eqb x k) eqn:E.
  - apply K_eqb_eq in E; subst k. rewrite IH.
    destruct (occurrences K_eqb x l); simpl; [reflexivity|].
    do 2 f_equal. lia.
  - rewrite IH, Nat.add_0_r. reflexivity.
Qed.

Lemma lookup_In (x : K) (n : nat) (c : list (K * nat)) :
  NoDup (map fst c) -> (In (x, n) c <-> lookup K_eqb x c = Some n).
Proof.
  induction c as [|[k' m] c IH]; simpl; intros H.
  - split; [tauto | discriminate].
  - inversion H as [|? ? Hk' Hc]; subst.
    destruct (K_eqb x k') eqn:E.
    + apply K_eqb_eq in E; subst k'. split.
      * intros [[= ->]|Hin]; [reflexivity|].
        exfalso. apply Hk'. apply in_map_iff. now exists (x, n).
      * intros [= ->]. now left.
    + apply K_eqb_false in E. rewrite <- (IH Hc). split.
      * intros [[= -> ->]|Hin]; [congruence | exact Hin].
      * auto.
Qed.

(** The items of a [Counter]: every value that occurs, once, with the
    number of its occurrences. *)
Lemma In_Counter_iff (x : K) (n : nat) (l : list K) :
  In (x, n) (Counter K_eqb l)
  <-> n = occurrences K_eqb x l /\ 0 < n.
Proof.
  rewrite (lookup_In x n _ (NoDup_Counter l)), lookup_Counter.
  destruct (occurrences K_eqb x l) as [|m].
  - split; [discriminate | intros [-> H]; lia].
  - split; [intros [= <-]; split; [reflexivity | lia] | intros [-> _]; auto].
Qed.

Lemma total_counter_add (k : K) (c : list (K * nat)) :
  list_sum (map snd (counter_add K_eqb k c)) = S (list_sum (map snd c)).
Proof.
  induction c as [|[k' n] c IH]; simpl; [reflexivity|].
  destruct (K_eqb k k'); simpl; [reflexivity | rewrite IH; lia].
Qed.

Lemma total_Counter (l : list K) :
  list_sum (map snd (Counter K_eqb l)) = List.length l.
Proof.
  induction l as [|k l IH] using rev_ind; [reflexivity|].
  rewrite counter_snoc, total_counter_add, IH, length_app. simpl. lia.
Qed.

Lemma Counter_nil_iff (l : list K) : Counter K_eqb l = [] <-> l = [].
Proof.
  split; [|intros ->; reflexivity].
  intros H. apply (f_equal (fun c => list_sum (map snd c))) in H.
  rewrite total_Counter in H. simpl in H.
  now apply length_zero_iff_nil.
Qed.

End CounterFacts.

Lemma list_sum_perm (l l' : list nat) :
  Permutation l l' -> list_sum l = list_sum l'.
Proof. induction 1; simpl; lia. Qed.

Lemma insert_index_perm (A : Type) (x : Z * A) (l : list (Z * A)) :
  Permutation (insert_index x l) (x :: l).
Proof.
  induction l as [|y l IH]; simpl; [reflexivity|].
  destruct (fst y <=? fst x)%Z; [|reflexivity].
  rewrite IH. apply perm_swap.
Qed.

Lemma sort_index_perm (A : Type) (l : list (Z * A)) :
  Permutation (sort_index l) l.
Proof.
  induction l as [|x l IH]; simpl; [reflexivity|].
  rewrite insert_index_perm. now constructor.
Qed.

Lemma pair_eqb_eq (a b : pystr * pystr) : pair_eqb a b = true <-> a = b.
Proof.
  unfold pair_eqb. rewrite andb_true_iff, !eqb_eq.
  destruct a, b; simpl. split; [intros [-> ->]; reflexivity|].
  intros [= -> ->]; auto.
Qed.

(* ================================================================== *)
(** * Failure pages *)
(* ================================================================== *)

Lemma errors_app (a b : list element) : errors (a ++ b) = errors a ++ errors b.
Proof.
  induction a as [|x a IH]; simpl; [reflexivity|].
  destruct x; simpl; now rewrite IH.
Qed.

Lemma warnings_app (a b : list element) :
  warnings (a ++ b) = warnings a ++ warnings b.
Proof.
  induction a as [|x a IH]; simpl; [reflexivity|].
  destruct x; simpl; now rewrite IH.
Qed.

Lemma charts_app (a b : list element) : charts (a ++ b) = charts a + charts b.
Proof.
  induction a as [|x a IH]; simpl; [reflexivity|].
  destruct x; simpl; now rewrite IH.
Qed.

Lemma page_errors (df : DataFrame) (sp ss sc : list pystr) :
  errors (page df sp ss sc) = [].
Proof.
  unfold page, metrics, tab1, tab2, tab3, tab4.
  rewrite !errors_app. cbn [errors app].
  repeat match goal with
         | |- context [if ?b then _ else _] => destruct b
         end; reflexivity.
Qed.

(** X1. The page is the single error "Failed to load the dataset or
    dataset is empty." exactly when the loader returned nothing or an
    empty frame; for a frame with at least one record the page shows no
    error at all and carries the title.  A CSV that could not be read
    shows the loader's message first and the failure message after it. *)
Theorem failure_page_iff (df : option DataFrame) (sp ss sc : list pystr) :
  (dashboard df sp ss sc = [st_error failed_message]
   <-> df = None \/ df = Some [])
  /\ (forall d, df = Some d -> d <> [] ->
        errors (dashboard df sp ss sc) = []
        /\ In (st_title "📊 Sentiment Analysis Dashboard")
              (dashboard df sp ss sc))
  /\ (forall to_numeric e,
        script to_numeric (ReadError e) sp ss sc
        = [ st_error ("Error loading data: " ++ e)%string;
            st_error failed_message ]).
Proof.
  split; [|split].
  - split.
    + destruct df as [[|p d]|]; auto.
      intros H. apply (f_equal errors) in H.
      unfold dashboard in H. cbn [empty negb] in H.
      rewrite page_errors in H. discriminate.
    + intros [->| ->]; reflexivity.
  - intros d -> Hd. destruct d as [|p d]; [congruence|].
    unfold dashboard. cbn [empty negb]. split; [apply page_errors|].
    unfold page. apply in_or_app. left. simpl. tauto.
  - reflexivity.
Qed.

Lemma failure_page_iff_witness :
  errors (dashboard (Some sample_df) [] [py "Positive"] []) = []
  /\ In (st_title "📊 Sentiment Analysis Dashboard")
        (dashboard (Some sample_df) [] [py "Positive"] []).
Proof.
  destruct (failure_page_iff (Some sample_df) [] [py "Positive"] [])
    as (_ & H & _).
  apply (H sample_df eq_refl). discriminate.
Defined.

(** X2. The load of a frame that carries the seven columns fails exactly
    when one of its Hour cells reads as an infinity, and the page is then
    the loader's report of the cast error followed by the failure
    message.  The load of a frame that lacks one of the seven columns
    always fails: the page is the report of the cast error when the
    column is Likes or Retweets and a Hour cell reads as an infinity, and
    the report of the missing column otherwise, followed by the failure
    message. *)
Theorem load_fails_iff_infinite_hour
    (to_numeric : pystr -> option float) (rows : list RawRow)
    (sp ss sc : list pystr) :
  let infinite_hour :=
    exists r neg,
      In r rows
      /\ to_numeric_coerce to_numeric (raw_Hour r) = Some (Inf neg) in
  (fst (load_data to_numeric (ReadOk rows)) = None <-> infinite_hour)
  /\ (fst (load_data to_numeric (ReadOk rows)) = None ->
      script to_numeric (ReadOk rows) sp ss sc
      = [ st_error ("Error loading data: " ++ cast_message)%string;
          st_error failed_message ])
  /\ (forall absent,
        fst (load_data to_numeric (ReadLacking absent rows)) = None)
  /\ (forall absent,
        read_after_cast absent = true -> infinite_hour ->
        script to_numeric (ReadLacking absent rows) sp ss sc
        = [ st_error ("Error loading data: " ++ cast_message)%string;
            st_error failed_message ])
  /\ (forall absent,
        ~ (read_after_cast absent = true /\ infinite_hour) ->
        script to_numeric (ReadLacking absent rows) sp ss sc
        = [ st_error ("Error loading data: "
                      ++ key_error_message absent)%string;
            st_error failed_message ]).
Proof.
  intros infinite_hour.
  assert (Hconv : convert_all to_numeric rows = None <-> infinite_hour).
  { etransitivity; [|exact (load_data_fails to_numeric rows)].
    unfold load_data.
    destruct (convert_all to_numeric rows); simpl; split; congruence. }
  split; [apply load_data_fails|]. split; [|split; [|split]].
  - unfold script, load_data.
    destruct (convert_all to_numeric rows); [discriminate | reflexivity].
  - intros absent. unfold load_data.
    destruct (read_after_cast absent), (convert_all to_numeric rows);
      reflexivity.
  - intros absent Hcast Hinf. apply (proj2 Hconv) in Hinf.
    unfold script, load_data. now rewrite Hcast, Hinf.
  - intros absent Hnot. unfold script, load_data.
    destruct (read_after_cast absent) eqn:Hcast; [|reflexivity].
    destruct (convert_all to_numeric rows) eqn:Hc; [reflexivity|].
    exfalso. apply Hnot. split; [reflexivity | now apply Hconv].
Qed.

Lemma load_fails_iff_infinite_hour_witness :
  fst (load_data decimal_literal (ReadOk [raw_row "-inf" "1" "1"])) = None
  /\ script decimal_literal (ReadOk [raw_row "-inf" "1" "1"]) [] [] []
     = [ st_error ("Error loading data: " ++ cast_message)%string;
         st_error failed_message ]
  /\ fst (load_data decimal_literal (ReadOk [raw_no_platform])) <> None
  /\ script decimal_literal
            (ReadLacking c_Retweets [raw_row "-inf" "1" "1"]) [] [] []
     = [ st_error ("Error loading data: " ++ cast_message)%string;
         st_error failed_message ]
  /\ script decimal_literal
            (ReadLacking c_Hour [raw_row "-inf" "1" "1"]) [] [] []
     = [ st_error "Error loading data: 'Hour'"; st_error failed_message ].
Proof.
  destruct (load_fails_iff_infinite_hour decimal_literal
              [raw_row "-inf" "1" "1"] [] [] [])
    as (Hiff & Hpage & _ & Hcast & Hkey).
  assert (Hinf : exists r neg,
             In r [raw_row "-inf" "1" "1"]
             /\ to_numeric_coerce decimal_literal (raw_Hour r)
                = Some (Inf neg)).
  { exists (raw_row "-inf" "1" "1"), true.
    split; [now left | reflexivity]. }
  assert (H : fst (load_data decimal_literal
                     (ReadOk [raw_row "-inf" "1" "1"])) = None)
    by (apply Hiff; exact Hinf).
  split; [exact H|]. split; [exact (Hpage H)|]. split; [discriminate|].
  split; [exact (Hcast c_Retweets eq_refl Hinf)|].
  apply (Hkey c_Hour). intros [E _]. discriminate E.
Defined.

(* ================================================================== *)
(** * Sidebar options and selections *)
(* ================================================================== *)

Lemma unique_distinct (l : list pystr) : unique PyStr.eqb l = distinct l.
Proof.
  unfold unique. rewrite Counter_items, map_map. simpl. apply map_id.
Qed.

Lemma convert_field to_numeric (d : dimension) (r : RawRow) (p : Post) :
  convert to_numeric r = Some p -> field d p = astype_str (raw_field d r).
Proof.
  unfold convert. destruct (astype_int _); [|discriminate].
  intros [= <-]. destruct d; reflexivity.
Qed.

Lemma Forall2_In_l (A B : Type) (P : A -> B -> Prop) l1 l2 x :
  Forall2 P l1 l2 -> In x l1 -> exists y, In y l2 /\ P x y.
Proof.
  induction 1 as [|a b l1 l2 Hab _ IH]; simpl; [tauto|].
  intros [<-|Hx]; [exists b; auto|].
  destruct (IH Hx) as (y & Hy & Hxy). exists y; auto.
Qed.

Lemma page_multiselect (df : DataFrame) (sp ss sc : list pystr) d :
  In (st_sidebar_multiselect (widget_label d)
        (unique PyStr.eqb (map (field d) df)))
     (page df sp ss sc).
Proof.
  unfold page. apply in_or_app. left. destruct d; simpl; tauto.
Qed.

Lemma filter_all (A : Type) (p : A -> bool) (l : list A) :
  (forall x, In x l -> p x = true) -> filter p l = l.
Proof.
  induction l as [|x l IH]; simpl; intros H; [reflexivity|].
  rewrite (H x) by auto. f_equal. apply IH. auto.
Qed.

Lemma step_all (d : dimension) (selected : list pystr) (df : DataFrame) :
  (forall r, In r df -> In (field d r) selected) -> step d selected df = df.
Proof.
  intros H. rewrite step_filter. apply filter_all.
  intros r Hr. unfold accepts. destruct (truthy selected); [|reflexivity].
  apply isin_In. auto.
Qed.

Lemma In_options (d : dimension) (df : DataFrame) (r : Post) :
  In r df -> In (field d r) (unique PyStr.eqb (map (field d) df)).
Proof.
  intros H. rewrite unique_distinct. apply In_distinct. now apply in_map.
Qed.

(** X3. A record loaded from a row whose Platform, Sentiment or Country
    cell is missing has the text "nan" in that field; "nan" is then one
    of the options the sidebar offers for that dimension, and selecting
    it keeps the record. *)
Theorem missing_category_offered_as_nan
    (to_numeric : pystr -> option float) (rows : list RawRow)
    (df : DataFrame) (d : dimension) (r : RawRow) :
  load_data to_numeric (ReadOk rows) = (Some df, []) ->
  In r rows ->
  raw_field d r = None ->
  exists p,
    In p df /\ convert to_numeric r = Some p
    /\ field d p = py "nan"
    /\ In (st_sidebar_multiselect (widget_label d)
             (unique PyStr.eqb (map (field d) df)))
          (page df [] [] [])
    /\ In (py "nan") (unique PyStr.eqb (map (field d) df))
    /\ In p (step d [py "nan"] df).
Proof.
  intros Hload Hr Hnone.
  apply load_data_rows in Hload. destruct Hload as (H2 & _).
  destruct (Forall2_In_l _ H2 Hr) as (p & Hp & Hc).
  exists p. split; [exact Hp|]. split; [exact Hc|].
  pose proof (@convert_field to_numeric d _ _ Hc) as E.
  rewrite Hnone in E. simpl in E.
  split; [exact E|]. split; [apply page_multiselect|]. split.
  - rewrite <- E. now apply In_options.
  - rewrite step_filter. apply filter_In. split; [exact Hp|].
    unfold accepts. simpl truthy. cbv iota. apply isin_In.
    rewrite E. now left.
Qed.

Lemma missing_category_offered_as_nan_witness :
  exists df p,
    load_data decimal_literal (ReadOk [raw_no_platform]) = (Some df, [])
    /\ In p df
    /\ Platform p = py "nan"
    /\ In (py "nan") (unique PyStr.eqb (map Platform df))
    /\ In p (filtered_df df [py "nan"] [] []).
Proof.
  destruct (@missing_category_offered_as_nan decimal_literal
              [raw_no_platform] _ dim_Platform raw_no_platform eq_refl
              (or_introl eq_refl) eq_refl) as (p & Hp & _ & H1 & _ & H2 & H3).
  eexists. exists p. split; [reflexivity|]. split; [exact Hp|].
  split; [exact H1|]. split; [exact H2 | exact H3].
Defined.

(** X4. The options of each sidebar widget are the values its column
    takes in the loaded frame, each listed once, in the order of their
    first appearance; the value of every record is among them, so a
    loaded frame with a record always offers at least one option. *)
Theorem sidebar_options (df : DataFrame) (sp ss sc : list pystr)
    (d : dimension) :
  let options := unique PyStr.eqb (map (field d) df) in
  In (st_sidebar_multiselect (widget_label d) options) (page df sp ss sc)
  /\ options = distinct (map (field d) df)
  /\ NoDup options
  /\ (forall x, In x options <-> exists r, In r df /\ field d r = x)
  /\ (forall x y, before x y options ->
        first_seen x (map (field d) df) < first_seen y (map (field d) df))
  /\ (df <> [] -> options <> []).
Proof.
  intros options. unfold options.
  split; [apply page_multiselect|].
  rewrite unique_distinct.
  split; [reflexivity|]. split; [apply NoDup_distinct|].
  split; [|split].
  - intros x. rewrite In_distinct, in_map_iff.
    split; intros (r & H1 & H2); exists r; auto.
  - intros x y. apply first_seen_before.
  - destruct df as [|r df]; [congruence|]. discriminate.
Qed.

Lemma sidebar_options_witness :
  unique PyStr.eqb (map Platform sample_df) = [py "Twitter"; py "Facebook"]
  /\ first_seen (py "Twitter") (map Platform sample_df)
     < first_seen (py "Facebook") (map Platform sample_df)
  /\ unique PyStr.eqb (map Platform sample_df) <> [].
Proof.
  destruct (sidebar_options sample_df [] [] [] dim_Platform)
    as (_ & _ & _ & _ & Hord & Hne).
  split; [reflexivity|]. split.
  - apply Hord. simpl. left. split; [reflexivity | now left].
  - apply Hne. discriminate.
Defined.

Lemma step_In (d : dimension) (selected : list pystr) (df : DataFrame) r :
  In r (step d selected df) -> In r df.
Proof. apply Subseq_In, step_Subseq. Qed.

(** X5. Selecting every option of a dimension gives the same view as
    selecting none of them, for each of the three dimensions and whatever
    the other two selections are; with every option of every dimension
    selected the view is the whole dataset. *)
Theorem selecting_every_option_is_selecting_none
    (df : DataFrame) (sp ss sc : list pystr) :
  filtered_df df (unique PyStr.eqb (map Platform df)) ss sc
  = filtered_df df [] ss sc
  /\ filtered_df df sp (unique PyStr.eqb (map Sentiment df)) sc
     = filtered_df df sp [] sc
  /\ filtered_df df sp ss (unique PyStr.eqb (map Country df))
     = filtered_df df sp ss []
  /\ filtered_df df (unique PyStr.eqb (map Platform df))
                 (unique PyStr.eqb (map Sentiment df))
                 (unique PyStr.eqb (map Country df)) = df.
Proof.
  assert (Hall : forall d X,
             (forall r, In r X -> In r df) ->
             step d (unique PyStr.eqb (map (field d) df)) X = X).
  { intros d X HX. apply step_all. intros r Hr.
    apply (In_options d). auto. }
  pose proof (Hall dim_Platform) as HP.
  pose proof (Hall dim_Sentiment) as HS.
  pose proof (Hall dim_Country) as HC.
  cbn [field] in HP, HS, HC.
  rewrite !filtered_df_steps, !step_nil.
  split; [|split; [|split]].
  - rewrite (HP df); auto.
  - rewrite HS; [reflexivity|].
    intros r. apply step_In.
  - rewrite HC; [reflexivity|].
    intros r Hr. apply step_In in Hr. now apply step_In in Hr.
  - rewrite (HP df), (HS df), (HC df); auto.
Qed.

Lemma filter_Subseq_impl (A : Type) (p q : A -> bool) (l : list A) :
  (forall x, In x l -> p x = true -> q x = true) ->
  Subseq (filter p l) (filter q l).
Proof.
  induction l as [|x l IH]; simpl; intros H; [constructor|].
  assert (IH' : Subseq (filter p l) (filter q l)) by (apply IH; auto).
  destruct (p x) eqn:Ep.
  - rewrite (H x) by auto. now constructor.
  - destruct (q x); [now constructor | exact IH'].
Qed.

Lemma accepts_widens (d : dimension) (narrow wide : list pystr) (r : Post) :
  widens narrow wide ->
  accepts d narrow r = true -> accepts d wide r = true.
Proof.
  unfold accepts. intros [->|(Hne & Hincl)]; [reflexivity|].
  rewrite (selection_nonempty_truthy Hne). intros H.
  destruct (truthy wide); [|reflexivity].
  apply isin_In. apply Hincl. now apply isin_In.
Qed.

Lemma accepts_same (d : dimension) (s s' : list pystr) (r : Post) :
  (forall x, In x s <-> In x s') -> accepts d s r = accepts d s' r.
Proof.
  intros H. unfold accepts.
  assert (Et : truthy s = truthy s').
  { destruct s as [|a s], s' as [|b s']; try reflexivity.
    - destruct (proj2 (H b)); now left.
    - destruct (proj1 (H a)); now left. }
  rewrite <- Et. destruct (truthy s); [|reflexivity].
  destruct (isin (field d r) s) eqn:E.
  - symmetry. apply isin_In, H, isin_In, E.
  - destruct (isin (field d r) s') eqn:E'; [|reflexivity].
    apply isin_In, H, isin_In in E'. congruence.
Qed.

(** X6. Filtering composes predictably.  Filtering a filtered view again
    with the same selections changes nothing; two selections with the
    same values, picked in any order, give the same view; and widening
    the selections (adding values to a non-empty selection, or clearing
    it) only adds records, in place, to the view. *)
Theorem filtering_composes
    (df : DataFrame) (sp ss sc sp' ss' sc' : list pystr) :
  filtered_df (filtered_df df sp ss sc) sp ss sc = filtered_df df sp ss sc
  /\ ((forall x, In x sp <-> In x sp') ->
      (forall x, In x ss <-> In x ss') ->
      (forall x, In x sc <-> In x sc') ->
      filtered_df df sp ss sc = filtered_df df sp' ss' sc')
  /\ (widens sp sp' -> widens ss ss' -> widens sc sc' ->
      Subseq (filtered_df df sp ss sc) (filtered_df df sp' ss' sc')
      /\ List.length (filtered_df df sp ss sc)
         <= List.length (filtered_df df sp' ss' sc')).
Proof.
  rewrite !filtered_df_filter. split; [|split].
  - rewrite filter_filter_and. apply filter_ext.
    intros r. now rewrite andb_diag.
  - intros Hp Hs Hc. apply filter_ext. intros r.
    now rewrite (@accepts_same dim_Platform _ _ r Hp),
      (@accepts_same dim_Sentiment _ _ r Hs),
      (@accepts_same dim_Country _ _ r Hc).
  - intros Hp Hs Hc.
    assert (H : Subseq
                  (filter (fun r => accepts dim_Platform sp r
                                    && (accepts dim_Sentiment ss r
                                        && accepts dim_Country sc r)) df)
                  (filter (fun r => accepts dim_Platform sp' r
                                    && (accepts dim_Sentiment ss' r
                                        && accepts dim_Country sc' r)) df)).
    { apply filter_Subseq_impl. intros r _.
      rewrite !andb_true_iff. intros (H1 & H2 & H3).
      split; [|split]; eapply accepts_widens; eassumption. }
    split; [exact H | now apply Subseq_length].
Qed.

Lemma filtering_composes_witness :
  filtered_df sample_df [py "Facebook"; py "Twitter"] [] []
  = filtered_df sample_df [py "Twitter"; py "Facebook"; py "Twitter"] [] []
  /\ Subseq (filtered_df sample_df [py "Twitter"] [py "Positive"] [])
            (filtered_df sample_df [py "Twitter"; py "Facebook"] [] [])
  /\ List.length (filtered_df sample_df [py "Twitter"] [py "Positive"] [])
     <= List.length (filtered_df sample_df [py "Twitter"; py "Facebook"] [] []).
Proof.
  destruct (filtering_composes sample_df
              [py "Facebook"; py "Twitter"] [] []
              [py "Twitter"; py "Facebook"; py "Twitter"] [] [])
    as (_ & Hsame & _).
  destruct (filtering_composes sample_df
              [py "Twitter"] [py "Positive"] []
              [py "Twitter"; py "Facebook"] [] [])
    as (_ & _ & Hwide).
  split.
  - apply Hsame; intros x; simpl; tauto.
  - apply Hwide.
    + right. split; [discriminate|]. intros x [<-|[]]. now left.
    + now left.
    + now left.
Defined.

(* ================================================================== *)
(** * Frequency tables of the charts *)
(* ================================================================== *)

Lemma list_sum_firstn (n : nat) (l : list nat) :
  list_sum (firstn n l) <= list_sum l.
Proof.
  revert n; induction l as [|x l IH]; intros [|n]; simpl; try lia.
  specialize (IH n). lia.
Qed.

Lemma total_sorted_desc (K : Type) (c : list (K * nat)) :
  list_sum (map snd (sorted_desc c)) = list_sum (map snd c).
Proof. apply list_sum_perm, Permutation_map, sorted_desc_perm. Qed.

Lemma sorted_desc_nil_iff (K : Type) (c : list (K * nat)) :
  sorted_desc c = [] <-> c = [].
Proof.
  split; [|intros ->; reflexivity].
  intros H. pose proof (sorted_desc_perm c) as P. rewrite H in P.
  now apply Permutation_nil.
Qed.

Lemma StronglySorted_app_In (A : Type) (R : A -> A -> Prop) l1 l2 x y :
  StronglySorted R (l1 ++ l2) -> In x l1 -> In y l2 -> R x y.
Proof.
  induction l1 as [|a l1 IH]; simpl; [tauto|].
  intros H [->|Hx] Hy; inversion H as [|? ? Hs Hall]; subst.
  - rewrite Forall_forall in Hall. apply Hall, in_or_app. auto.
  - auto.
Qed.

Lemma StronglySorted_app_l (A : Type) (R : A -> A -> Prop) l1 l2 :
  StronglySorted R (l1 ++ l2) -> StronglySorted R l1.
Proof.
  induction l1 as [|a l1 IH]; simpl; [constructor|].
  intros H. inversion H as [|? ? Hs Hall]; subst.
  constructor; [auto|].
  apply Forall_app in Hall. tauto.
Qed.

Lemma insert_index_sorted (A : Type) (x : Z * A) (l : list (Z * A)) :
  StronglySorted (@index_le A) l ->
  StronglySorted (@index_le A) (insert_index x l).
Proof.
  induction 1 as [|y l Hl IH Hy]; simpl.
  - repeat constructor.
  - destruct (fst y <=? fst x)%Z eqn:E.
    + apply Z.leb_le in E. constructor; [assumption|].
      apply Forall_forall. intros z Hz.
      apply (Permutation_in _ (insert_index_perm x l)) in Hz.
      destruct Hz as [<-|Hz]; [exact E|].
      rewrite Forall_forall in Hy. auto.
    + apply Z.leb_gt in E. constructor; [now constructor|].
      constructor; [unfold index_le; lia|].
      eapply Forall_impl; [|exact Hy].
      unfold index_le. intros; lia.
Qed.

Lemma sort_index_sorted (A : Type) (l : list (Z * A)) :
  StronglySorted (@index_le A) (sort_index l).
Proof.
  induction l; simpl; [constructor | now apply insert_index_sorted].
Qed.

Lemma sorted_strict (A : Type) (l : list (Z * A)) :
  StronglySorted (@index_le A) l -> NoDup (map fst l) ->
  StronglySorted (@index_lt A) l.
Proof.
  induction 1 as [|x l Hl IH Hx]; simpl; intros Hnd; [constructor|].
  inversion Hnd as [|? ? Hnotin Hnd']; subst.
  constructor; [auto|].
  rewrite Forall_forall in *. intros y Hy.
  specialize (Hx y Hy). unfold index_le in Hx. unfold index_lt.
  assert (fst x <> fst y); [|lia].
  intros E. apply Hnotin. rewrite E. now apply in_map.
Qed.

Lemma Z_eqb_eq (x y : Z) : Z.eqb x y = true <-> x = y.
Proof. apply Z.eqb_eq. Qed.

(** X7. The counts of each frequency chart add up to the Total Posts
    metric: the sentiment distribution, the per-hour series and the
    platform by sentiment groups each account for every record of the
    view exactly once, and the top-10 country counts for at most that
    many. *)
Theorem chart_counts_add_up (view : DataFrame) :
  list_sum (map snd (sentiment_counts view)) = List.length view
  /\ list_sum (map snd (hour_counts view)) = List.length view
  /\ list_sum (map snd (platform_sentiment view)) = List.length view
  /\ list_sum (map snd (country_counts view)) <= List.length view
  /\ In (st_metric "Total Posts" (decimal (Z.of_nat (List.length view))) "🔢")
        (metrics view).
Proof.
  split; [|split; [|split; [|split]]].
  - unfold sentiment_counts, value_counts.
    now rewrite total_sorted_desc, total_Counter, length_map.
  - unfold hour_counts, value_counts.
    rewrite (list_sum_perm (Permutation_map snd (sort_index_perm _))).
    now rewrite total_sorted_desc, total_Counter, length_map.
  - unfold platform_sentiment. now rewrite total_Counter, length_map.
  - unfold country_counts, head, value_counts. rewrite <- firstn_map.
    eapply Nat.le_trans; [apply list_sum_firstn|].
    rewrite total_sorted_desc, total_Counter, length_map. lia.
  - unfold metrics. simpl. tauto.
Qed.

(** X8. The per-hour series lists the hours that occur in the view in
    strictly increasing order, each with the number of records posted at
    that hour; every record's hour is on the series. *)
Theorem hour_counts_series (view : DataFrame) :
  StronglySorted (@index_lt nat) (hour_counts view)
  /\ (forall h n,
        In (h, n) (hour_counts view)
        <-> n = occurrences Z.eqb h (map Hour view) /\ 0 < n)
  /\ (forall r, In r view ->
        In (Hour r, occurrences Z.eqb (Hour r) (map Hour view))
           (hour_counts view))
  /\ (hour_counts view = [] <-> view = []).
Proof.
  assert (Hperm : Permutation (hour_counts view)
                    (Counter Z.eqb (map Hour view))).
  { unfold hour_counts, value_counts.
    rewrite sort_index_perm. apply sorted_desc_perm. }
  assert (Hin : forall h n,
             In (h, n) (hour_counts view)
             <-> n = occurrences Z.eqb h (map Hour view) /\ 0 < n).
  { intros h n. rewrite <- (@In_Counter_iff _ _ Z_eqb_eq). split.
    - apply Permutation_in. exact Hperm.
    - apply Permutation_in. symmetry. exact Hperm. }
  split; [|split; [exact Hin|split]].
  - apply sorted_strict; [apply sort_index_sorted|].
    eapply Permutation_NoDup;
      [symmetry; apply Permutation_map; exact Hperm|].
    apply (@NoDup_Counter _ _ Z_eqb_eq).
  - intros r Hr. apply Hin. split; [reflexivity|].
    apply (@occurrences_pos _ _ Z_eqb_eq). now apply in_map.
  - split.
    + intros H. rewrite H in Hperm. apply Permutation_nil in Hperm.
      apply Counter_nil_iff in Hperm. now apply map_eq_nil in Hperm.
    + intros ->. reflexivity.
Qed.

Lemma hour_counts_series_witness :
  exists df,
    load_data decimal_literal (ReadOk hours_csv) = (Some df, [])
    /\ hour_counts df = [(0%Z, 1); (5%Z, 2); (23%Z, 1)]
    /\ forall r, In r df ->
         In (Hour r, occurrences Z.eqb (Hour r) (map Hour df))
            (hour_counts df).
Proof.
  eexists. split; [reflexivity|]. split; [reflexivity|].
  intros r Hr.
  match goal with
  | |- In _ (hour_counts ?d) =>
      destruct (hour_counts_series d) as (_ & _ & H & _)
  end.
  exact (H r Hr).
Defined.

Lemma In_value_counts (x : pystr) (n : nat) (l : list pystr) :
  In (x, n) (value_counts PyStr.eqb l)
  <-> n = occurrences PyStr.eqb x l /\ 0 < n.
Proof.
  rewrite <- (@In_Counter_iff _ _ eqb_eq). unfold value_counts.
  split; apply Permutation_in;
    [apply sorted_desc_perm | symmetry; apply sorted_desc_perm].
Qed.

Lemma NoDup_value_counts (l : list pystr) :
  NoDup (map fst (value_counts PyStr.eqb l)).
Proof.
  eapply Permutation_NoDup;
    [symmetry; apply Permutation_map, sorted_desc_perm|].
  apply (@NoDup_Counter _ _ eqb_eq).
Qed.

(** X9. The sentiment distribution lists every sentiment of the view
    once, with the number of records that carry it, the most frequent
    first; it is empty only for an empty view, and only then does the
    page fall back to "No sentiment data to display.". *)
Theorem sentiment_distribution (view : DataFrame) :
  StronglySorted (@count_ge pystr) (sentiment_counts view)
  /\ NoDup (map fst (sentiment_counts view))
  /\ (forall s n,
        In (s, n) (sentiment_counts view)
        <-> n = occurrences PyStr.eqb s (map Sentiment view) /\ 0 < n)
  /\ (sentiment_counts view = [] <-> view = [])
  /\ (In (st_warning "No sentiment data to display.") (tab1 view)
      <-> view = []).
Proof.
  assert (Hnil : sentiment_counts view = [] <-> view = []).
  { unfold sentiment_counts, value_counts.
    rewrite sorted_desc_nil_iff, Counter_nil_iff. split.
    - apply map_eq_nil.
    - intros ->. reflexivity. }
  split; [apply sorted_desc_sorted|].
  split; [apply NoDup_value_counts|].
  split; [intros; apply In_value_counts|].
  split; [exact Hnil|].
  unfold tab1. destruct view as [|p view].
  - simpl. split; [reflexivity | tauto].
  - assert (Hn : sentiment_counts (p :: view) <> []).
    { intros H. apply Hnil in H. discriminate. }
    clear Hnil. destruct (sentiment_counts (p :: view)); [congruence|].
    simpl. split; [|discriminate].
    intros [H|[H|[H|[H|[]]]]]; discriminate.
Qed.

(** X10. The country chart holds ten countries, or all of them when the
    view has fewer; each is listed once with the number of its records,
    the most frequent first, and no country left out has more records
    than a listed one. *)
Theorem top_countries (view : DataFrame) :
  List.length (country_counts view)
  = Nat.min 10 (List.length (distinct (map Country view)))
  /\ StronglySorted (@count_ge pystr) (country_counts view)
  /\ NoDup (map fst (country_counts view))
  /\ (forall c n,
        In (c, n) (country_counts view) ->
        n = occurrences PyStr.eqb c (map Country view) /\ 0 < n)
  /\ (forall c n r,
        In (c, n) (country_counts view) -> In r view ->
        ~ In (Country r) (map fst (country_counts view)) ->
        occurrences PyStr.eqb (Country r) (map Country view) <= n).
Proof.
  unfold country_counts, head.
  set (S := value_counts PyStr.eqb (map Country view)).
  assert (ES : S = firstn 10 S ++ skipn 10 S)
    by (symmetry; apply firstn_skipn).
  assert (Hsorted : StronglySorted (@count_ge pystr) S)
    by apply sorted_desc_sorted.
  split; [|split; [|split; [|split]]].
  - rewrite length_firstn. f_equal. unfold S, value_counts.
    rewrite (Permutation_length (sorted_desc_perm _)), Counter_items.
    apply length_map.
  - rewrite ES in Hsorted. now apply StronglySorted_app_l in Hsorted.
  - pose proof (NoDup_value_counts (map Country view)) as H.
    fold S in H. rewrite ES, map_app in H.
    eapply NoDup_app_remove_r; exact H.
  - intros c n H. apply In_value_counts. fold S. rewrite ES.
    apply in_or_app; auto.
  - intros c n r Hc Hr Hout.
    assert (Hr' : In (Country r,
                      occurrences PyStr.eqb (Country r) (map Country view))
                     S).
    { apply In_value_counts. split; [reflexivity|].
      apply (@occurrences_pos _ _ eqb_eq). now apply in_map. }
    rewrite ES in Hr'. apply in_app_or in Hr'.
    destruct Hr' as [Hr'|Hr'].
    + exfalso. apply Hout. apply in_map_iff.
      eexists. split; [|exact Hr']. reflexivity.
    + rewrite ES in Hsorted.
      exact (StronglySorted_app_In _ _ _ _ Hsorted Hc Hr').
Qed.

Lemma top_countries_witness :
  country_counts sample_df = [(py "UK", 2); (py "India", 1)]
  /\ occurrences PyStr.eqb (py "UK") (map Country sample_df) = 2.
Proof.
  destruct (top_countries sample_df) as (_ & _ & _ & H & _).
  split; [reflexivity|].
  symmetry. apply (H (py "UK") 2). simpl. now left.
Defined.

(** X11. The platform by sentiment table has one group for every pair
    of platform and sentiment that occurs in the view, sized by the
    number of records with that pair; it is empty only for an empty
    view. *)
Theorem platform_sentiment_groups (view : DataFrame) :
  NoDup (map fst (platform_sentiment view))
  /\ (forall p s n,
        In ((p, s), n) (platform_sentiment view)
        <-> n = occurrences pair_eqb (p, s)
                  (map (fun r => (Platform r, Sentiment r)) view)
            /\ 0 < n)
  /\ (forall r, In r view ->
        exists n, 0 < n
          /\ In ((Platform r, Sentiment r), n) (platform_sentiment view))
  /\ (platform_sentiment view = [] <-> view = []).
Proof.
  change (platform_sentiment view)
    with (Counter pair_eqb (map (fun r => (Platform r, Sentiment r)) view)).
  split; [apply (@NoDup_Counter _ _ pair_eqb_eq)|].
  split; [intros; apply (@In_Counter_iff _ _ pair_eqb_eq)|].
  split.
  - intros r Hr. eexists. split; [|apply (@In_Counter_iff _ _ pair_eqb_eq)].
    + apply (@occurrences_pos _ _ pair_eqb_eq).
      apply (in_map (fun r => (Platform r, Sentiment r))). exact Hr.
    + split; [reflexivity|].
      apply (@occurrences_pos _ _ pair_eqb_eq).
      apply (in_map (fun r => (Platform r, Sentiment r))). exact Hr.
  - rewrite Counter_nil_iff. split; [apply map_eq_nil | intros ->; reflexivity].
Qed.

Lemma platform_sentiment_groups_witness :
  exists n, 0 < n
    /\ In ((py "Facebook", py "Negative"), n) (platform_sentiment sample_df).
Proof.
  destruct (platform_sentiment_groups sample_df) as (_ & _ & H & _).
  apply (H (sample_post "Negative" "Facebook" "India")).
  simpl. tauto.
Defined.

Lemma Counter_constant (s : pystr) (l : list pystr) (n : nat) :
  Forall (eq s) l ->
  fold_left (fun c k => counter_add PyStr.eqb k c) l [(s, n)]
  = [(s, n + List.length l)].
Proof.
  intros H. revert n. induction H as [|x l <- _ IH]; intros n; simpl.
  - now rewrite Nat.add_0_r.
  - rewrite eqb_refl, IH. do 2 f_equal. lia.
Qed.

(** X12. With exactly one sentiment selected and a view that is not
    empty, the sentiment distribution has a single entry: the selected
    sentiment, with the Total Posts count. *)
Theorem one_sentiment_one_slice
    (df : DataFrame) (sp sc : list pystr) (s : pystr) :
  filtered_df df sp [s] sc <> [] ->
  sentiment_counts (filtered_df df sp [s] sc)
  = [(s, List.length (filtered_df df sp [s] sc))].
Proof.
  set (view := filtered_df df sp [s] sc). intros Hne.
  assert (Hall : Forall (eq s) (map Sentiment view)).
  { apply Forall_forall. intros x Hx. apply in_map_iff in Hx.
    destruct Hx as (r & <- & Hr). apply filtered_df_accepts in Hr.
    destruct Hr as (_ & _ & HS & _). unfold accepts in HS. simpl in HS.
    rewrite orb_false_r in HS. apply eqb_eq in HS. auto. }
  unfold sentiment_counts, value_counts, Counter.
  destruct view as [|r view]; [congruence|].
  simpl map in *. inversion Hall as [|? ? Hr Hrest]; subst.
  cbn [fold_left counter_add]. rewrite Counter_constant by exact Hrest.
  simpl. rewrite length_map. reflexivity.
Qed.

Lemma one_sentiment_one_slice_witness :
  sentiment_counts (filtered_df sample_df [] [py "Positive"] [])
  = [(py "Positive", 2)].
Proof.
  apply (@one_sentiment_one_slice sample_df [] [] (py "Positive")).
  discriminate.
Defined.

(* ================================================================== *)
(** * Hashtag tokens *)
(* ================================================================== *)

Lemma split_aux_clean (cur s : pystr) :
  Forall (fun c => isspace c = false) cur ->
  Forall clean_token (split_aux cur s).
Proof.
  revert cur; induction s as [|c s IH]; intros cur Hcur; simpl.
  - destruct cur as [|a cur]; constructor; [|constructor].
    split; [|now apply Forall_rev].
    intros H. apply (f_equal (@List.length _)) in H.
    rewrite length_rev in H. discriminate.
  - destruct (isspace c) eqn:E.
    + destruct cur as [|a cur]; [apply IH; constructor|].
      constructor; [|apply IH; constructor].
      split; [|now apply Forall_rev].
      intros H. apply (f_equal (@List.length _)) in H.
      rewrite length_rev in H. discriminate.
    + apply IH. now constructor.
Qed.

Lemma split_aux_nil (cur s : pystr) :
  split_aux cur s = [] <-> cur = [] /\ blank s.
Proof.
  revert cur; induction s as [|c s IH]; intros cur; simpl.
  - destruct cur as [|a cur].
    + split; [intros _; split; [reflexivity | constructor] | reflexivity].
    + split; [discriminate | intros [H _]; discriminate].
  - destruct (isspace c) eqn:E.
    + destruct cur as [|a cur].
      * rewrite IH. split; intros [H1 H2]; split; auto.
        -- now constructor.
        -- now inversion H2.
      * split; [discriminate | intros [H _]; discriminate].
    + rewrite IH. split.
      * intros [H _]; discriminate.
      * intros [_ H]. inversion H; congruence.
Qed.

Lemma split_aux_token (cur t : pystr) :
  Forall (fun c => isspace c = false) t ->
  cur <> [] \/ t <> [] ->
  split_aux cur t = [rev cur ++ t].
Proof.
  revert cur; induction t as [|c t IH]; intros cur Ht Hne; simpl.
  - rewrite app_nil_r. destruct cur; [destruct Hne; congruence | reflexivity].
  - inversion Ht as [|? ? Hc Ht']; subst. rewrite Hc.
    rewrite IH; [|assumption | left; discriminate].
    simpl. now rewrite <- app_assoc.
Qed.

Lemma split_clean (t : pystr) : clean_token t -> split t = [t].
Proof.
  intros (Hne & Ht). unfold split. rewrite split_aux_token; auto.
Qed.

Lemma firstn_nil_iff (A : Type) (n : nat) (l : list A) :
  0 < n -> (firstn n l = [] <-> l = []).
Proof.
  destruct n; [lia|]. destruct l; simpl; split; congruence.
Qed.

Lemma hashtag_counts_nil (view : DataFrame) :
  hashtag_counts view = [] <-> hashtag_list view = [].
Proof.
  unfold hashtag_counts, most_common.
  rewrite firstn_nil_iff by lia.
  now rewrite sorted_desc_nil_iff, Counter_nil_iff.
Qed.



(* ================================================================== *)
(** * Charts and their fallbacks *)
(* ================================================================== *)

Lemma page_parts (df : DataFrame) (sp ss sc : list pystr) :
  warnings (page df sp ss sc)
  = warnings (tab1 (filtered_df df sp ss sc))
    ++ warnings (tab2 (filtered_df df sp ss sc))
    ++ warnings (tab3 (filtered_df df sp ss sc))
    ++ warnings (tab4 (filtered_df df sp ss sc))
  /\ charts (page df sp ss sc)
     = charts (tab1 (filtered_df df sp ss sc))
       + charts (tab2 (filtered_df df sp ss sc))
       + charts (tab3 (filtered_df df sp ss sc))
       + charts (tab4 (filtered_df df sp ss sc)).
Proof.
  unfold page, metrics. rewrite !warnings_app, !charts_app.
  cbn [warnings charts app]. rewrite app_nil_r. split; [reflexivity | lia].
Qed.

Lemma tabs_of_view (view : DataFrame) :
  view <> [] ->
  (warnings (tab1 view) = [] /\ charts (tab1 view) = 2)
  /\ (warnings (tab2 view) = [] /\ charts (tab2 view) = 2)
  /\ (warnings (tab3 view) = [] /\ charts (tab3 view) = 2).
Proof.
  intros Hne.
  assert (H1 : sentiment_counts view <> []).
  { unfold sentiment_counts, value_counts.
    rewrite sorted_desc_nil_iff, Counter_nil_iff.
    intros H. now apply map_eq_nil in H. }
  assert (H2 : platform_sentiment view <> []).
  { unfold platform_sentiment. rewrite Counter_nil_iff.
    intros H. now apply map_eq_nil in H. }
  assert (H3 : hour_counts view <> []).
  { unfold hour_counts, value_counts. intros H.
    pose proof (sort_index_perm
                  (sorted_desc (Counter Z.eqb (map Hour view)))) as P.
    rewrite H in P. apply Permutation_nil in P.
    apply sorted_desc_nil_iff, Counter_nil_iff, map_eq_nil in P.
    congruence. }
  assert (H4 : country_counts view <> []).
  { unfold country_counts, head, value_counts.
    rewrite firstn_nil_iff, sorted_desc_nil_iff, Counter_nil_iff by lia.
    intros H. now apply map_eq_nil in H. }
  unfold tab1, tab2, tab3.
  destruct view as [|r view]; [congruence|].
  destruct (sentiment_counts (r :: view)); [congruence|].
  destruct (platform_sentiment (r :: view)); [congruence|].
  destruct (hour_counts (r :: view)); [congruence|].
  destruct (country_counts (r :: view)); [congruence|].
  repeat split.
Qed.

(** X14. The fallbacks of the page follow the view.  For an empty view
    no chart is drawn and the eight warnings are shown, in the order of
    the charts.  For a view with a record, all of whose Likes are
    non-negative reals (the marker sizes the scatter chart accepts), the
    seven charts other than the hashtag chart are drawn, and the only
    possible warning is "No hashtags found.", shown in place of the
    hashtag chart exactly when the view has no hashtag token. *)
Theorem fallbacks_follow_the_view
    (df : DataFrame) (sp ss sc : list pystr) :
  df <> [] ->
  let view := filtered_df df sp ss sc in
  let shown := dashboard (Some df) sp ss sc in
  (view = [] -> warnings shown = all_warnings /\ charts shown = 0)
  /\ (view <> [] -> Forall (fun p => nonneg_real (Likes p)) view ->
      hashtag_list view <> [] ->
      warnings shown = [] /\ charts shown = 8)
  /\ (view <> [] -> Forall (fun p => nonneg_real (Likes p)) view ->
      hashtag_list view = [] ->
      warnings shown = ["No hashtags found."%string] /\ charts shown = 7).
Proof.
  intros Hdf view shown.
  assert (Eshown : shown = page df sp ss sc).
  { unfold shown, dashboard. destruct df; [congruence | reflexivity]. }
  destruct (page_parts df sp ss sc) as (Ew & Ec).
  fold view in Ew, Ec. rewrite Eshown, Ew, Ec. clear Eshown Ew Ec.
  split; [|split].
  - intros ->. split; reflexivity.
  - intros Hne _ Htok.
    destruct (tabs_of_view Hne) as ((W1 & C1) & (W2 & C2) & (W3 & C3)).
    rewrite W1, W2, W3, C1, C2, C3.
    assert (Hc : hashtag_counts view <> [])
      by (rewrite hashtag_counts_nil; exact Htok).
    unfold tab4. destruct (hashtag_counts view); [congruence|].
    destruct view; [congruence|]. split; reflexivity.
  - intros Hne _ Htok.
    destruct (tabs_of_view Hne) as ((W1 & C1) & (W2 & C2) & (W3 & C3)).
    rewrite W1, W2, W3, C1, C2, C3.
    apply hashtag_counts_nil in Htok.
    unfold tab4. rewrite Htok.
    destruct view; [congruence|]. split; reflexivity.
Qed.

Lemma fallbacks_follow_the_view_witness :
  warnings (dashboard (Some two_posts) [py "Twitter"] [py "Negative"] [])
  = all_warnings
  /\ charts (dashboard (Some sample_df) [] [py "Positive"] []) = 8
  /\ warnings (dashboard (Some [tagged_post " "]) [] [] [])
     = ["No hashtags found."%string].
Proof.
  split; [|split].
  - destruct (@fallbacks_follow_the_view two_posts
                [py "Twitter"] [py "Negative"] []) as (H & _);
      [discriminate|].
    apply H. reflexivity.
  - destruct (@fallbacks_follow_the_view sample_df [] [py "Positive"] [])
      as (_ & H & _); [discriminate|].
    apply H; [discriminate | | discriminate].
    repeat constructor; simpl; discriminate.
  - destruct (@fallbacks_follow_the_view [tagged_post " "] [] [] [])
      as (_ & _ & H); [discriminate|].
    apply H; [discriminate | | reflexivity].
    repeat constructor; simpl; discriminate.
Defined.

(* ================================================================== *)
(** * Means and the Hour cast *)
(* ================================================================== *)

Lemma fsum_nan (l : list float) :
  fold_left (fun acc x => fadd acc (Some x)) l None = None.
Proof. induction l as [|x l IH]; simpl; [reflexivity | exact IH]. Qed.

Lemma fsum_inf (s : bool) (l : list float) :
  (In (Inf (negb s)) l ->
   fold_left (fun acc x => fadd acc (Some x)) l (Some (Inf s)) = None)
  /\ (~ In (Inf (negb s)) l ->
      fold_left (fun acc x => fadd acc (Some x)) l (Some (Inf s))
      = Some (Inf s)).
Proof.
  induction l as [|x l (IH1 & IH2)]; simpl; [tauto|].
  destruct x as [q|t]; simpl.
  - split.
    + intros [H|H]; [discriminate | auto].
    + intros H. apply IH2. tauto.
  - destruct (Bool.eqb s t) eqn:E.
    + apply Bool.eqb_prop in E; subst t. split.
      * intros [H|H]; [destruct s; discriminate | auto].
      * intros H. apply IH2. tauto.
    + split; [intros _; apply fsum_nan|].
      intros H. exfalso. apply H. left.
      destruct s, t; simpl in *; congruence.
Qed.

Lemma fsum_fin (q : Q) (l : list float) :
  (forall qs, finite_values l = Some qs ->
     exists m, fold_left (fun acc x => fadd acc (Some x)) l (Some (Fin q))
               = Some (Fin m)
               /\ (m == q + sumQ qs)%Q)
  /\ (fold_left (fun acc x => fadd acc (Some x)) l (Some (Fin q)) = None
      <-> In (Inf false) l /\ In (Inf true) l)
  /\ (forall s, In (Inf s) l -> ~ In (Inf (negb s)) l ->
        fold_left (fun acc x => fadd acc (Some x)) l (Some (Fin q))
        = Some (Inf s)).
Proof.
  revert q; induction l as [|x l IH]; intros q; simpl.
  - split; [|split].
    + intros qs [= <-]. exists q. split; [reflexivity | simpl; ring].
    + split; [discriminate | tauto].
    + tauto.
  - destruct x as [p|t]; simpl.
    + destruct (IH (q + p)%Q) as (IH1 & IH2 & IH3). split; [|split].
      * intros qs H. destruct (finite_values l) as [qs'|]; [|discriminate].
        injection H as <-. destruct (IH1 qs' eq_refl) as (m & Hm & Em).
        exists m. split; [exact Hm|]. rewrite Em. simpl. ring.
      * rewrite IH2. split; intros [H1 H2]; split; auto.
        -- destruct H1; [discriminate | assumption].
        -- destruct H2; [discriminate | assumption].
      * intros s [H|H] Hn; [discriminate|]. apply IH3; tauto.
    + destruct (fsum_inf t l) as (F1 & F2). split; [|split].
      * discriminate.
      * split.
        -- intros H.
           destruct (in_dec float_eq_dec (Inf (negb t)) l) as [Hin|Hout].
           ++ destruct t; simpl in Hin; auto.
           ++ rewrite (F2 Hout) in H. discriminate.
        -- intros [H1 H2]. apply F1.
           destruct t; simpl; [destruct H1 | destruct H2]; congruence.
      * intros s [[= <-]|H] Hn.
        -- apply F2. tauto.
        -- destruct (Bool.bool_dec s t) as [->|Hst]; [apply F2; tauto|].
           exfalso. apply Hn. left.
           destruct s, t; simpl; congruence.
Qed.

Lemma fdiv_count_None (x : option float) (n : nat) :
  fdiv_count x n = None <-> x = None.
Proof. destruct x as [[q|s]|]; simpl; split; congruence. Qed.

Lemma nan_mean_iff (l : list float) :
  (mean l = None -> l = [] \/ (In (Inf false) l /\ In (Inf true) l))
  /\ (l = [] \/ (In (Inf false) l /\ In (Inf true) l) -> mean l = None).
Proof.
  destruct (fsum_fin (0 # 1) l) as (_ & F2 & _).
  destruct l as [|x l]; [simpl; tauto|].
  unfold mean. rewrite fdiv_count_None. unfold fsum. rewrite F2.
  split; [auto | intros [H|H]; [discriminate | exact H]].
Qed.

(** X15. On a column whose finite values have magnitude at most 2^100,
    so that no sum of them overflows, the mean behind the Avg Likes and
    Avg Retweets metrics is NaN exactly when the column is empty or holds
    both infinities; a column of finite values that is not empty has the
    finite mean sum over count, and a column with an infinity of one sign
    only has that infinity as its mean. *)
Theorem mean_of_column (l : list float) :
  Forall moderate l ->
  (mean l = None <-> l = [] \/ (In (Inf false) l /\ In (Inf true) l))
  /\ (forall qs, l <> [] -> finite_values l = Some qs ->
        exists m, mean l = Some (Fin m)
                  /\ (m == sumQ qs / count_of qs)%Q)
  /\ (forall s, In (Inf s) l -> ~ In (Inf (negb s)) l ->
        mean l = Some (Inf s)).
Proof.
  intros _.
  destruct (fsum_fin (0 # 1) l) as (F1 & F2 & F3).
  split; [|split].
  - destruct l as [|x l]; [simpl; tauto|].
    unfold mean. rewrite fdiv_count_None. unfold fsum. rewrite F2.
    split; [auto | intros [H|H]; [discriminate | exact H]].
  - intros qs Hne Hqs. destruct l as [|x l]; [congruence|].
    unfold mean, fsum. destruct (F1 qs Hqs) as (m & -> & Em).
    simpl fdiv_count. eexists. split; [reflexivity|].
    assert (El : List.length qs = List.length (x :: l)).
    { clear -Hqs. revert qs Hqs.
      induction (x :: l) as [|y l' IH]; intros qs; simpl.
      - now intros [= <-].
      - destruct y; [|discriminate].
        destruct (finite_values l') as [qs'|]; [|discriminate].
        intros [= <-]. simpl. f_equal. now apply IH. }
    unfold count_of. rewrite El, Em, Qplus_0_l. reflexivity.
  - intros s Hs Hn. destruct l as [|x l]; [destruct Hs|].
    unfold mean, fsum. now rewrite (F3 s Hs Hn).
Qed.

Lemma mean_of_column_witness :
  (exists m, mean [Fin (10 # 1); Fin (30 # 1)] = Some (Fin m)
             /\ (m == 20 # 1)%Q)
  /\ mean [Fin (1 # 1); Inf false] = Some (Inf false)
  /\ mean [Inf true; Fin (1 # 1); Inf false] = None.
Proof.
  assert (Hm : forall q, (Qabs q <= 30 # 1)%Q -> moderate (Fin q)).
  { intros q Hq. simpl. eapply Qle_trans; [exact Hq|].
    vm_compute. discriminate. }
  split; [|split].
  - destruct (@mean_of_column [Fin (10 # 1); Fin (30 # 1)]) as (_ & H & _).
    { repeat constructor; apply Hm; vm_compute; discriminate. }
    destruct (H [10 # 1; 30 # 1]%Q) as (m & Hmean & Em);
      [discriminate | reflexivity |].
    exists m. split; [exact Hmean|]. rewrite Em. reflexivity.
  - destruct (@mean_of_column [Fin (1 # 1); Inf false]) as (_ & _ & H).
    { repeat constructor. apply Hm. vm_compute. discriminate. }
    apply H; simpl; [tauto|]. intros [E|[E|[]]]; discriminate.
  - destruct (@mean_of_column [Inf true; Fin (1 # 1); Inf false])
      as (H & _).
    { repeat constructor. apply Hm. vm_compute. discriminate. }
    apply H. right. simpl. tauto.
Defined.

(** X16. The Hour of a record loaded from a Hour cell that reads as a
    number of magnitude below 2^63 is that number with its fractional
    part dropped, toward zero: a whole number is kept as it is, a number
    that is not negative is rounded down and one that is not positive is
    rounded up, by less than one. *)
Theorem hour_truncates_toward_zero
    (to_numeric : pystr -> option float) (r : RawRow) (q : Q) :
  to_numeric_coerce to_numeric (raw_Hour r) = Some (Fin q) ->
  (Qabs q < inject_Z (2 ^ 63))%Q ->
  exists p,
    convert to_numeric r = Some p
    /\ ((0 <= q)%Q ->
        (inject_Z (Hour p) <= q)%Q /\ (q < inject_Z (Hour p + 1))%Q)
    /\ ((q <= 0)%Q ->
        (q <= inject_Z (Hour p))%Q /\ (inject_Z (Hour p - 1) < q)%Q)
    /\ (forall z, q = inject_Z z -> Hour p = z).
Proof.
  intros H _. unfold convert. rewrite H. simpl.
  eexists. split; [reflexivity|]. simpl.
  destruct q as [n d]. unfold Qle, Qlt, inject_Z; simpl.
  pose proof (Z.quot_rem' n (Z.pos d)) as E.
  split; [|split].
  - intros Hn. assert (0 <= n)%Z by lia.
    pose proof (Z.rem_bound_pos n (Z.pos d) ltac:(lia) ltac:(lia)). nia.
  - intros Hn. assert (n <= 0)%Z by lia.
    pose proof (Z.rem_bound_pos_neg n (Z.pos d) ltac:(lia) ltac:(lia)). nia.
  - intros z [= -> ->]. apply Z.quot_1_r.
Qed.

Lemma hour_truncates_toward_zero_witness :
  exists p q,
    convert decimal_literal (raw_row "-3.7" "1" "1") = Some p
    /\ to_numeric_coerce decimal_literal (raw_Hour (raw_row "-3.7" "1" "1"))
       = Some (Fin q)
    /\ Hour p = (-3)%Z
    /\ (q <= inject_Z (Hour p))%Q /\ (inject_Z (Hour p - 1) < q)%Q.
Proof.
  destruct (@hour_truncates_toward_zero decimal_literal
              (raw_row "-3.7" "1" "1") (-37 # 10) eq_refl)
    as (p & Hp & _ & Hneg & _); [vm_compute; reflexivity|].
  exists p, (-37 # 10)%Q. split; [exact Hp|]. split; [reflexivity|].
  split.
  - revert Hp. vm_compute. now intros [= <-].
  - apply Hneg. vm_compute. discriminate.
Defined.

(* ================================================================== *)
(** * Bounds of the correlation *)
(* ================================================================== *)

Lemma cauchy_schwarz_step (a b A SA SB : Q) :
  (0 <= SA)%Q -> (0 <= SB)%Q -> (A * A <= SA * SB)%Q ->
  ((a * b + A) * (a * b + A) <= (a * a + SA) * (b * b + SB))%Q.
Proof.
  intros H1 H2 H3.
  assert (HT : (0 <= a * a * SB + b * b * SA - 2 * a * b * A)%Q).
  { destruct (Qeq_dec SA 0) as [E|E].
    - assert (EA : (A == 0)%Q).
      { rewrite E in H3.
        assert (H : (A * A == 0)%Q)
          by (apply Qle_antisym; [Lqa.lra | apply square_nonneg]).
        destruct (Qmult_integral _ _ H); assumption. }
      rewrite E, EA.
      pose proof (Qmult_le_0_compat _ _ (square_nonneg a) H2). Lqa.lra.
    - assert (Hpos : (0 < SA)%Q).
      { apply Qle_lt_or_eq in H1. destruct H1 as [?|H1]; [assumption|].
        exfalso. apply E. symmetry. exact H1. }
      assert (K : (0 <= SA * (a * a * SB + b * b * SA - 2 * a * b * A))%Q).
      { setoid_replace (SA * (a * a * SB + b * b * SA - 2 * a * b * A))%Q
          with (a * a * (SA * SB - A * A)
                + (a * A - b * SA) * (a * A - b * SA))%Q by ring.
        assert (D : (0 <= SA * SB - A * A)%Q) by Lqa.lra.
        pose proof (Qmult_le_0_compat _ _ (square_nonneg a) D).
        pose proof (square_nonneg (a * A - b * SA)). Lqa.lra. }
      destruct (Qlt_le_dec (a * a * SB + b * b * SA - 2 * a * b * A) 0)
        as [Hn|Hn]; [|exact Hn].
      exfalso. Lqa.nra. }
  Lqa.nra.
Qed.

Lemma cauchy_schwarz (mx my : Q) (xs ys : list Q) :
  List.length xs = List.length ys ->
  (sumQ (map (fun p => (fst p - mx) * (snd p - my)) (combine xs ys))
   * sumQ (map (fun p => (fst p - mx) * (snd p - my)) (combine xs ys))
   <= sumQ (map (fun p => (fst p - mx) * (snd p - mx)) (combine xs xs))
      * sumQ (map (fun p => (fst p - my) * (snd p - my)) (combine ys ys)))%Q.
Proof.
  revert ys; induction xs as [|x xs IH]; intros [|y ys] Hlen;
    try discriminate Hlen; simpl.
  - apply Qle_refl.
  - apply cauchy_schwarz_step.
    + apply sumQ_squares_nonneg.
    + apply sumQ_squares_nonneg.
    + apply IH. now injection Hlen.
Qed.

Lemma co_moment_bound (xs ys : list Q) :
  List.length xs = List.length ys ->
  (co_moment xs ys * co_moment xs ys
   <= co_moment xs xs * co_moment ys ys)%Q.
Proof. intros H. unfold co_moment. now apply cauchy_schwarz. Qed.

Lemma pearson_finite_bounded (xs ys : list Q) (rho : R) :
  List.length xs = List.length ys ->
  pearson_finite xs ys = Some rho -> (-1 <= rho <= 1)%R.
Proof.
  intros Hlen. unfold pearson_finite.
  set (P := (co_moment xs xs * co_moment ys ys)%Q).
  destruct (Qeq_bool P (0 # 1)) eqn:B; [discriminate|].
  intros [= <-].
  assert (HP0 : (0 <= P)%Q)
    by (apply Qmult_le_0_compat; apply co_moment_self_nonneg).
  assert (HPn : ~ (P == 0 # 1)%Q).
  { intros H. apply Qeq_bool_iff in H. congruence. }
  assert (HPpos : (0 < Q2R P)%R).
  { replace 0%R with (Q2R (0 # 1)) by (unfold Q2R; simpl; lra).
    apply Qlt_Rlt. apply Qle_lt_or_eq in HP0.
    destruct HP0 as [?|E]; [assumption|]. exfalso. apply HPn. now symmetry. }
  pose proof (Qle_Rle _ _ (co_moment_bound xs ys Hlen)) as Hcs.
  fold P in Hcs. rewrite Q2R_mult in Hcs.
  set (c := Q2R (co_moment xs ys)) in *.
  set (s := sqrt (Q2R P)).
  assert (Hs : (0 < s)%R) by (apply sqrt_lt_R0; exact HPpos).
  assert (Hss : (s * s = Q2R P)%R) by (apply sqrt_sqrt; lra).
  assert (Hc : (- s <= c <= s)%R) by (split; nra).
  assert (Hi : (0 < / s)%R) by (apply Rinv_0_lt_compat; exact Hs).
  assert (Hsi : (s * / s = 1)%R) by (apply Rinv_r; lra).
  unfold Rdiv. split; nra.
Qed.



(* ================================================================== *)
(** * Selections in one dimension, and the text of a mean *)
(* ================================================================== *)

(** X18. A selection made in one dimension only, among the options the
    sidebar offers, never empties the view: every selected value keeps at
    least one record. *)
Theorem single_dimension_view_not_empty
    (df : DataFrame) (d : dimension) (selected : list pystr) :
  selected <> [] ->
  incl selected (unique PyStr.eqb (map (field d) df)) ->
  step d selected df <> []
  /\ (forall x, In x selected ->
        exists r, In r (step d selected df) /\ field d r = x)
  /\ match d with
     | dim_Platform => filtered_df df selected [] []
     | dim_Sentiment => filtered_df df [] selected []
     | dim_Country => filtered_df df [] [] selected
     end = step d selected df.
Proof.
  intros Hne Hincl.
  assert (Hrec : forall x, In x selected ->
                   exists r, In r (step d selected df) /\ field d r = x).
  { intros x Hx. specialize (Hincl x Hx).
    rewrite unique_distinct, In_distinct, in_map_iff in Hincl.
    destruct Hincl as (r & E & Hr). exists r. split; [|exact E].
    rewrite step_filter. apply filter_In. split; [exact Hr|].
    unfold accepts. rewrite (selection_nonempty_truthy Hne).
    apply isin_In. now rewrite E. }
  split; [|split; [exact Hrec|]].
  - destruct selected as [|x sel]; [congruence|].
    destruct (Hrec x (or_introl eq_refl)) as (r & Hr & _).
    intros E. rewrite E in Hr. destruct Hr.
  - destruct d; rewrite filtered_df_steps, ?step_nil; reflexivity.
Qed.

Lemma single_dimension_view_not_empty_witness :
  filtered_df sample_df [] [] [py "India"] <> [].
Proof.
  destruct (@single_dimension_view_not_empty sample_df dim_Country
              [py "India"]) as (H & _ & E).
  - discriminate.
  - intros x [<-|[]]. vm_compute. tauto.
  - rewrite E. exact H.
Defined.

Lemma list_ascii_app (a b : string) :
  list_ascii_of_string (a ++ b)
  = list_ascii_of_string a ++ list_ascii_of_string b.
Proof. induction a as [|c a IH]; simpl; [reflexivity | now rewrite IH]. Qed.

Lemma format_2f_finite_has_dot (q : Q) :
  In "."%char (list_ascii_of_string (format_2f (Some (Fin q)))).
Proof.
  unfold format_2f. rewrite !list_ascii_app.
  apply in_or_app. right. apply in_or_app. right.
  apply in_or_app. left. simpl. tauto.
Qed.

Lemma format_2f_nan (x : option float) : format_2f x = "nan"%string <-> x = None.
Proof.
  split; [|intros ->; reflexivity].
  destruct x as [[q|[|]]|]; try reflexivity; try discriminate.
  intros H. pose proof (format_2f_finite_has_dot q) as Hdot.
  rewrite H in Hdot. simpl in Hdot.
  destruct Hdot as [E|[E|[E|[]]]]; discriminate.
Qed.

(** X19. On a view whose finite Likes and Retweets have magnitude at most
    2^100, so that no sum of them overflows, the Avg Likes and Avg
    Retweets metrics read "nan" exactly when the view is empty or the
    column holds both infinities; in every other case they show a number
    or an infinity. *)
Theorem avg_metric_reads_nan (view : DataFrame) :
  Forall moderate (map Likes view) ->
  Forall moderate (map Retweets view) ->
  (format_2f (mean (map Likes view)) = "nan"%string
   <-> view = []
       \/ (In (Inf false) (map Likes view) /\ In (Inf true) (map Likes view)))
  /\ (format_2f (mean (map Retweets view)) = "nan"%string
      <-> view = []
          \/ (In (Inf false) (map Retweets view)
              /\ In (Inf true) (map Retweets view)))
  /\ In (st_metric "Avg Likes" (format_2f (mean (map Likes view))) "👍")
        (metrics view)
  /\ In (st_metric "Avg Retweets"
           (format_2f (mean (map Retweets view))) "🔁")
        (metrics view).
Proof.
  intros _ _.
  assert (Hcol : forall col : Post -> float,
             format_2f (mean (map col view)) = "nan"%string
             <-> view = []
                 \/ (In (Inf false) (map col view)
                     /\ In (Inf true) (map col view))).
  { intros col. rewrite format_2f_nan.
    destruct (nan_mean_iff (map col view)) as (H1 & H2).
    split.
    - intros H. destruct (H1 H) as [E|E]; [left | right; exact E].
      now apply map_eq_nil in E.
    - intros [->|H]; [reflexivity | apply H2; right; exact H]. }
  split; [apply Hcol|]. split; [apply Hcol|].
  unfold metrics. simpl. tauto.
Qed.

Lemma avg_metric_reads_nan_witness :
  Forall moderate (map Likes varied_view)
  /\ Forall moderate (map Retweets varied_view)
  /\ format_2f (mean (map Likes varied_view)) <> "nan"%string
  /\ In (st_metric "Avg Likes" "20.00" "👍") (metrics varied_view).
Proof.
  assert (HL : Forall moderate (map Likes varied_view))
    by (repeat constructor; vm_compute; discriminate).
  assert (HR : Forall moderate (map Retweets varied_view))
    by (repeat constructor; vm_compute; discriminate).
  destruct (@avg_metric_reads_nan varied_view HL HR) as (Hiff & _ & Hin & _).
  split; [exact HL|]. split; [exact HR|]. split; [|exact Hin].
  intros H. apply (proj1 Hiff) in H.
  destruct H as [H|[H _]]; [discriminate H|].
  destruct H as [H|[H|[]]]; discriminate H.
Defined.
